(** * checkup: the HTTP checker, its verdict and the telemetry message

    A shallow embedding of the HTTP endpoint checker of the repository
    (package [http]: [Checker.Check], [doChecks], [conclude], [checkDown],
    [DefaultHTTPClient]) and of the message composed by the Application
    Insights exporter ([Exporter.Send]).  The exporter ([New], [Export])
    and the Azure storage ([Store], [Maintain], [checkSASURL],
    [getSASURL]) follow, with the Azure SDK as an environment.

    Go values are embedded as follows.
    - [time.Duration] and [int] are 64-bit integers; they are embedded
      in [Z].  The code only compares and prints them.
    - A Go [string] is a sequence of bytes: [string].
    - [*http.Client] is a pointer: clients live in a heap ([gmap loc]),
      and the package variable [DefaultHTTPClient] holds a location.
    - [http.Header] is a map from names to lists of values: [gmap string
      (list string)].  A map that the code ranges over is a list of
      bindings in the order of the iteration.
    - The operating system, the network, the clock and the functions of
      Go's library that are not defined here are gathered in [Env]. *)

From Stdlib Require Import ZArith Ascii String List Lia Bool.
From stdpp Require Import base option list gmap strings pretty.

Local Open Scope string_scope.
Local Open Scope Z_scope.
Local Open Scope list_scope.

(** ** Strings: the functions of package [strings] and [fmt] that are used *)

Module GoStrings.

(** [strings.Join(elems, sep)]. *)
Fixpoint Join (elems : list string) (sep : string) : string :=
  match elems with
  | [] => ""
  | [e] => e
  | e :: rest => e +:+ sep +:+ Join rest sep
  end.

(** [strings.HasPrefix(s, p)]. *)
Fixpoint HasPrefix (s p : string) : bool :=
  match p, s with
  | EmptyString, _ => true
  | String _ _, EmptyString => false
  | String b p', String a s' => Ascii.eqb a b && HasPrefix s' p'
  end.

(** [strings.Contains(s, substr)]: [substr] starts at some index of [s]. *)
Fixpoint Contains (s substr : string) : bool :=
  HasPrefix s substr ||
  match s with
  | EmptyString => false
  | String _ s' => Contains s' substr
  end.

(** Lower-casing of one byte of the ASCII range. *)
Definition lower_byte (a : ascii) : ascii :=
  let n := nat_of_ascii a in
  if (65 <=? n)%nat && (n <=? 90)%nat then ascii_of_nat (n + 32) else a.

(** [strings.ToLower] on a string of ASCII bytes. *)
Fixpoint ascii_ToLower (s : string) : string :=
  match s with
  | EmptyString => EmptyString
  | String a s' => String (lower_byte a) (ascii_ToLower s')
  end.

(** The [%d] verb on a non-negative integer. *)
Definition itoa (n : nat) : string := pretty (N.of_nat n).

End GoStrings.

(** ** Durations: [time.Duration] and its [String] method *)

Module GoTime.

Definition Nanosecond : Z := 1.
Definition Microsecond : Z := 1000 * Nanosecond.
Definition Millisecond : Z := 1000 * Microsecond.
Definition Second : Z := 1000 * Millisecond.

Definition digit_char (d : Z) : ascii := ascii_of_nat (48 + Z.to_nat d).

(** [fmtFrac(buf, v, prec)]: the [prec] low decimal digits of [v] are
    written in front of [buf], trailing zeros omitted, with the decimal
    point when a digit was written; the rest of [v] is returned. *)
Fixpoint fmtFrac_loop (prec : nat) (v : Z) (print : bool) (buf : string)
  : string * Z * bool :=
  match prec with
  | O => (buf, v, print)
  | S k =>
      let digit := v mod 10 in
      let print := print || negb (digit =? 0) in
      let buf := if print then String (digit_char digit) buf else buf in
      fmtFrac_loop k (v / 10) print buf
  end.

Definition fmtFrac (buf : string) (v : Z) (prec : nat) : string * Z :=
  let '(buf, v, print) := fmtFrac_loop prec v false buf in
  (if print then String "."%char buf else buf, v).

(** [fmtInt(buf, v)]: the decimal digits of [v] in front of [buf]. *)
Definition fmtInt (buf : string) (v : Z) : string :=
  pretty (Z.to_N v) +:+ buf.

(** The micro sign, U+00B5, in UTF-8. *)
Definition micro : string :=
  String (ascii_of_nat 194) (String (ascii_of_nat 181) EmptyString).

(** [Duration.String]: ["72h3m0.5s"], ["200ms"], ["0s"]. *)
Definition Duration_String (d : Z) : string :=
  let u := Z.abs d in
  let body :=
    if u <? Second then
      if u =? 0 then "0s"
      else
        let '(unit, prec) :=
          if u <? Microsecond then ("ns", 0%nat)
          else if u <? Millisecond then (micro +:+ "s", 3%nat)
          else ("ms", 6%nat) in
        let '(buf, u) := fmtFrac unit u prec in
        fmtInt buf u
    else
      let '(buf, u) := fmtFrac "s" u 9 in
      let buf := fmtInt buf (u mod 60) in
      let u := u / 60 in
      if 0 <? u then
        let buf := fmtInt (String "m"%char buf) (u mod 60) in
        let u := u / 60 in
        if 0 <? u then fmtInt (String "h"%char buf) u else buf
      else buf in
  if d <? 0 then String "-"%char body else body.

End GoTime.

Import GoStrings GoTime.

(** ** Package [types]: attempts, statistics and results *)

(** Modelled from the spec: the declarations of package [types]
    ([Attempt], [Attempts], [Stats], [Result], [NewResult]) are not among
    the sources.  The records have the fields that the checker and the
    exporter read and write; [NewResult] returns the zero [Result] (its
    time stamp is not read by the checker and is left out).  The method
    [Result.ComputeStats] is a field of [Env]. *)
Module types.

Record Attempt := mkAttempt {
  RTT : Z;            (* round-trip time, a [time.Duration] *)
  Error : string      (* description of the failure, empty on success *)
}.

Definition Attempts := list Attempt.

Record Stats := mkStats {
  Total : Z;
  Mean : Z;
  Median : Z;
  Min : Z;
  Max : Z
}.

Record Result := mkResult {
  Title : string;
  Endpoint : string;
  Times : Attempts;
  ThresholdRTT : Z;
  Stats_ : Stats;
  Healthy : bool;
  Degraded : bool;
  Down : bool;
  Notice : string
}.

Definition zeroAttempt : Attempt := {| RTT := 0; Error := "" |}.

Definition zeroStats : Stats :=
  {| Total := 0; Mean := 0; Median := 0; Min := 0; Max := 0 |}.

Definition NewResult : Result :=
  {| Title := ""; Endpoint := ""; Times := []; ThresholdRTT := 0;
     Stats_ := zeroStats; Healthy := false; Degraded := false;
     Down := false; Notice := "" |}.

(** Assignments to one field of a result or of an attempt. *)
Definition set_Title (r : Result) (v : string) : Result :=
  mkResult v (Endpoint r) (Times r) (ThresholdRTT r) (Stats_ r)
           (Healthy r) (Degraded r) (Down r) (Notice r).
Definition set_Endpoint (r : Result) (v : string) : Result :=
  mkResult (Title r) v (Times r) (ThresholdRTT r) (Stats_ r)
           (Healthy r) (Degraded r) (Down r) (Notice r).
Definition set_Times (r : Result) (v : Attempts) : Result :=
  mkResult (Title r) (Endpoint r) v (ThresholdRTT r) (Stats_ r)
           (Healthy r) (Degraded r) (Down r) (Notice r).
Definition set_ThresholdRTT (r : Result) (v : Z) : Result :=
  mkResult (Title r) (Endpoint r) (Times r) v (Stats_ r)
           (Healthy r) (Degraded r) (Down r) (Notice r).
Definition set_Stats (r : Result) (v : Stats) : Result :=
  mkResult (Title r) (Endpoint r) (Times r) (ThresholdRTT r) v
           (Healthy r) (Degraded r) (Down r) (Notice r).
Definition set_Healthy (r : Result) (v : bool) : Result :=
  mkResult (Title r) (Endpoint r) (Times r) (ThresholdRTT r) (Stats_ r)
           v (Degraded r) (Down r) (Notice r).
Definition set_Degraded (r : Result) (v : bool) : Result :=
  mkResult (Title r) (Endpoint r) (Times r) (ThresholdRTT r) (Stats_ r)
           (Healthy r) v (Down r) (Notice r).
Definition set_Down (r : Result) (v : bool) : Result :=
  mkResult (Title r) (Endpoint r) (Times r) (ThresholdRTT r) (Stats_ r)
           (Healthy r) (Degraded r) v (Notice r).
Definition set_Notice (r : Result) (v : string) : Result :=
  mkResult (Title r) (Endpoint r) (Times r) (ThresholdRTT r) (Stats_ r)
           (Healthy r) (Degraded r) (Down r) v.

Definition set_RTT (a : Attempt) (v : Z) : Attempt := mkAttempt v (Error a).
Definition set_Error (a : Attempt) (v : string) : Attempt := mkAttempt (RTT a) v.

End types.

(** ** Packages [crypto/tls], [net/url] and [net/http] *)

Definition loc := nat.

Module tls.

(** A certificate, in its DER encoding; a pool of trusted certificates. *)
Definition Cert := list Byte.byte.
Definition CertPool := list Cert.

(** [x509.NewCertPool]. *)
Definition NewCertPool : CertPool := [].

(** [tls.Config], the two fields that the checker sets. *)
Record Config := mkConfig {
  InsecureSkipVerify : bool;
  RootCAs : option CertPool      (* [None] is the nil pool *)
}.

End tls.

Module url.

(** A parsed URL. *)
Record URL := mkURL {
  Scheme : string;
  Host : string;      (* host or host:port *)
  Port : string;      (* [URL.Port()], empty when the host has no port *)
  Path : string
}.

Definition set_Host (u : URL) (h : string) : URL :=
  mkURL (Scheme u) h (Port u) (Path u).

End url.

Module net_http.

Definition StatusOK : Z := 200.

(** The closure [dialer] of [Check]: it captures the checker's URL and the
    TLS configuration of the invocation; its [net.Dialer] has a timeout. *)
Record Dialer := mkDialer {
  dial_URL : string;
  dial_Timeout : Z;
  dial_Config : tls.Config
}.

(** [http.Transport], the fields that the package sets. *)
Record Transport := mkTransport {
  ProxyFromEnvironment : bool;
  DialTimeout : Z;
  DialKeepAlive : Z;
  TLSHandshakeTimeout : Z;
  ExpectContinueTimeout : Z;
  MaxIdleConnsPerHost : Z;
  DisableCompression : bool;
  DisableKeepAlives : bool;
  ResponseHeaderTimeout : Z;
  DialTLS : option Dialer
}.

Definition set_DialTLS (t : Transport) (d : Dialer) : Transport :=
  mkTransport (ProxyFromEnvironment t) (DialTimeout t) (DialKeepAlive t)
    (TLSHandshakeTimeout t) (ExpectContinueTimeout t) (MaxIdleConnsPerHost t)
    (DisableCompression t) (DisableKeepAlives t) (ResponseHeaderTimeout t)
    (Some d).

(** [Transport.Clone] copies every field into a new transport. *)
Definition Clone (t : Transport) : Transport := t.

(** The interface [http.RoundTripper]: nil, a [*http.Transport], or a value
    of another type. *)
Inductive RoundTripper :=
| RT_nil
| RT_Transport (t : Transport)
| RT_other (name : string).

(** What a client does with a redirect response. *)
Inductive RedirectPolicy := FollowRedirects | UseLastResponse.

Record Client := mkClient {
  Transport_ : RoundTripper;
  CheckRedirect : RedirectPolicy;
  Timeout : Z
}.

Definition set_Transport (cl : Client) (rt : RoundTripper) : Client :=
  mkClient rt (CheckRedirect cl) (Timeout cl).

Record Request := mkRequest {
  Method : string;
  URL : url.URL;
  Host : string;
  Header : gmap string (list string)
}.

Definition set_Host (r : Request) (h : string) : Request :=
  mkRequest (Method r) (URL r) h (Header r).

Definition set_Header (r : Request) (h : gmap string (list string)) : Request :=
  mkRequest (Method r) (URL r) (Host r) h.

(** The body of a response, as [ioutil.ReadAll] finds it. *)
Inductive Body :=
| BodyBytes (b : string)
| BodyError (msg : string).

Record Response := mkResponse {
  StatusCode : Z;
  Status : string;    (* for instance "404 Not Found" *)
  Body_ : Body
}.

(** What [Client.Do] returns: an error, given by its description, or a
    response. *)
Inductive DoResult :=
| DoError (msg : string)
| DoResponse (resp : Response).

End net_http.

(** Go's [error] values that [Check] returns: the three errors of the
    package and the error of [url.Parse]. *)
Inductive error :=
| errReadingRootCert
| errParsingRootCert
| errParsingURL
| errURL (msg : string).

(** ** The state of the process and what can be observed of a run *)

Inductive Event :=
| EvReadFile (path : string)
| EvDo (client : loc) (cl : net_http.Client) (req : net_http.Request)
       (res : net_http.DoResult) (rtt : Z)
| EvClose
| EvSleep (d : Z).

Record State := mkState {
  heap : gmap loc net_http.Client;  (* the clients that pointers refer to *)
  DefaultHTTPClient : loc;          (* the package variable *)
  log : list Event                  (* what happened so far, oldest first *)
}.

Definition emit (e : Event) (s : State) : State :=
  mkState (heap s) (DefaultHTTPClient s) (log s ++ [e])%list.

Definition store (l : loc) (cl : net_http.Client) (s : State) : State :=
  mkState (<[l := cl]> (heap s)) (DefaultHTTPClient s) (log s).

(** The outcome of a call: it returns, or the goroutine panics. *)
Inductive outcome (A : Type) :=
| Done (a : A)
| Panic (msg : string).
Arguments Done {A} a.
Arguments Panic {A} msg.

(** The environment of the checker. *)
Record Env := mkEnv {
  (* [ioutil.ReadFile]: the slice ([None] is nil) and whether it failed *)
  ReadFile : string -> option (list Byte.byte) * bool;
  (* [x509.SystemCertPool], [None] when there is no system pool *)
  SystemCertPool : option tls.CertPool;
  (* the certificates that [AppendCertsFromPEM] finds in PEM data *)
  CertsFromPEM : list Byte.byte -> list tls.Cert;
  (* [url.Parse]: the URL, or the description of the error *)
  url_Parse : string -> url.URL + string;
  (* [strings.ToLower] *)
  ToLower : string -> string;
  (* [textproto.CanonicalMIMEHeaderKey], applied by [Header.Add] *)
  CanonicalMIMEHeaderKey : string -> string;
  (* [Client.Do] and the clock around it: the result of the round trip
     and its duration, given everything that happened before *)
  RoundTrip : list Event -> net_http.Client -> net_http.Request ->
              net_http.DoResult * Z;
  (* [Result.ComputeStats] of package [types] *)
  ComputeStats : types.Result -> types.Stats
}.

(** [Header.Add(key, value)]. *)
Definition Header_Add (E : Env) (h : gmap string (list string))
    (key value : string) : gmap string (list string) :=
  let k := CanonicalMIMEHeaderKey E key in
  <[k := (default [] (h !! k) ++ [value])%list]> h.

(** The certificates that the loop of [AppendCertsFromPEM] appends: it
    decodes a block as long as data are left, so that empty data hold no
    certificate. *)
Definition certificates_in (E : Env) (pem : list Byte.byte) : list tls.Cert :=
  match pem with
  | [] => []
  | _ :: _ => CertsFromPEM E pem
  end.

(** [pool.AppendCertsFromPEM(pem)]: the pool with the certificates found,
    and whether one was found. *)
Definition AppendCertsFromPEM (E : Env) (pool : tls.CertPool)
    (pem : list Byte.byte) : tls.CertPool * bool :=
  let certs := certificates_in E pem in
  ((pool ++ certs)%list, match certs with [] => false | _ :: _ => true end).

(** [removeEmptyPort]: a host that ends with a colon loses it. *)
Fixpoint removeEmptyPort (host : string) : string :=
  match host with
  | EmptyString => EmptyString
  | String a EmptyString => if Ascii.eqb a ":"%char then EmptyString else host
  | String a rest => String a (removeEmptyPort rest)
  end.

(** [http.NewRequest(method, url, nil)] for a valid method. *)
Definition NewRequest (E : Env) (method : string) (target : string)
  : net_http.Request + error :=
  match url_Parse E target with
  | inr msg => inr (errURL msg)
  | inl u =>
      let u := url.set_Host u (removeEmptyPort (url.Host u)) in
      inl (net_http.mkRequest method u (url.Host u) ∅)
  end.

(** ** Package [http]: the checker *)

Module http.

(** [Checker]: the configuration of one endpoint.  [Client] is a pointer,
    [None] when it is nil.  [Headers] lists the bindings of the header map
    in the order in which [range] yields them; the nil map has none. *)
Record Checker := mkChecker {
  Name : string;
  URL : string;
  UpStatus : Z;
  ThresholdRTT : Z;
  MustContain : string;
  MustNotContain : string;
  Attempts : Z;
  AttemptSpacing : Z;
  TLSSkipVerify : bool;
  TLSCAFile : string;
  Client : option loc;
  Headers : list (string * list string)
}.

Definition set_Attempts (c : Checker) (v : Z) : Checker :=
  mkChecker (Name c) (URL c) (UpStatus c) (ThresholdRTT c) (MustContain c)
    (MustNotContain c) v (AttemptSpacing c) (TLSSkipVerify c) (TLSCAFile c)
    (Client c) (Headers c).
Definition set_UpStatus (c : Checker) (v : Z) : Checker :=
  mkChecker (Name c) (URL c) v (ThresholdRTT c) (MustContain c)
    (MustNotContain c) (Attempts c) (AttemptSpacing c) (TLSSkipVerify c)
    (TLSCAFile c) (Client c) (Headers c).
Definition set_Client (c : Checker) (v : option loc) : Checker :=
  mkChecker (Name c) (URL c) (UpStatus c) (ThresholdRTT c) (MustContain c)
    (MustNotContain c) (Attempts c) (AttemptSpacing c) (TLSSkipVerify c)
    (TLSCAFile c) v (Headers c).

(** *** [checkDown] *)

(** The error of [checkDown], by its description; [None] is nil. *)
Definition checkDown (c : Checker) (resp : net_http.Response) : option string :=
  if negb (net_http.StatusCode resp =? UpStatus c) then
    Some ("response status " +:+ net_http.Status resp)
  else if String.eqb (MustContain c) "" && String.eqb (MustNotContain c) "" then
    None
  else
    match net_http.Body_ resp with
    | net_http.BodyError msg => Some ("reading response body: " +:+ msg)
    | net_http.BodyBytes body =>
        if negb (String.eqb (MustContain c) "")
           && negb (Contains body (MustContain c)) then
          Some ("response does not contain '" +:+ MustContain c +:+ "'")
        else if negb (String.eqb (MustNotContain c) "")
                && Contains body (MustNotContain c) then
          Some ("response contains '" +:+ MustNotContain c +:+ "'")
        else None
    end.

(** *** [doChecks] *)

(** [checks[i].f = v]: the assignment panics when [i] is out of range. *)
Definition assign_at (i : nat) (f : types.Attempt -> types.Attempt)
    (checks : types.Attempts) : outcome types.Attempts :=
  match checks !! i with
  | Some _ => Done (alter f i checks)
  | None => Panic "index out of range"
  end.

(** One iteration of the loop of [doChecks], for the index [i]. *)
Definition doChecks_body (E : Env) (c : Checker) (req : net_http.Request)
    (i : nat) (checks : types.Attempts) (s : State)
  : outcome types.Attempts * State :=
  match Client c with
  | None => (Panic "nil pointer dereference", s)
  | Some l =>
    match heap s !! l with
    | None => (Panic "nil pointer dereference", s)
    | Some cl =>
      let '(res, rtt) := RoundTrip E (log s) cl req in
      let s := emit (EvDo l cl req res rtt) s in
      match assign_at i (fun a => types.set_RTT a rtt) checks with
      | Panic m => (Panic m, s)
      | Done checks =>
        match res with
        | net_http.DoError msg =>
            (* continue *)
            (assign_at i (fun a => types.set_Error a msg) checks, s)
        | net_http.DoResponse resp =>
            let checks :=
              match checkDown c resp with
              | Some msg => assign_at i (fun a => types.set_Error a msg) checks
              | None => Done checks
              end in
            let s := emit EvClose s in
            let s := if 0 <? AttemptSpacing c
                     then emit (EvSleep (AttemptSpacing c)) s else s in
            (checks, s)
        end
      end
    end
  end.

(** The loop [for i := 0; i < c.Attempts; i++], with [n] iterations left. *)
Fixpoint doChecks_loop (E : Env) (c : Checker) (req : net_http.Request)
    (n : nat) (i : nat) (checks : types.Attempts) (s : State)
  : outcome types.Attempts * State :=
  match n with
  | O => (Done checks, s)
  | S n' =>
      match doChecks_body E c req i checks s with
      | (Done checks, s) => doChecks_loop E c req n' (S i) checks s
      | (Panic m, s) => (Panic m, s)
      end
  end.

Definition doChecks (E : Env) (c : Checker) (req : net_http.Request)
    (s : State) : outcome types.Attempts * State :=
  if Attempts c <? 0 then (Panic "makeslice: len out of range", s)
  else
    let n := Z.to_nat (Attempts c) in
    doChecks_loop E c req n 0 (replicate n types.zeroAttempt) s.

(** *** [conclude] *)

(** The loop over [result.Times]: it stops at the first attempt with an
    error. *)
Fixpoint any_error (times : types.Attempts) : bool :=
  match times with
  | [] => false
  | a :: rest =>
      if negb (String.eqb (types.Error a) "") then true else any_error rest
  end.

Definition exceeded_notice (threshold : Z) : string :=
  "median round trip time exceeded threshold (" +:+ Duration_String threshold
  +:+ ")".

Definition conclude (E : Env) (c : Checker) (result : types.Result)
  : types.Result :=
  let result := types.set_ThresholdRTT result (ThresholdRTT c) in
  if any_error (types.Times result) then
    types.set_Down result true
  else
    if 0 <? ThresholdRTT c then
      let result := types.set_Stats result (ComputeStats E result) in
      if ThresholdRTT c <? types.Median (types.Stats_ result) then
        let result := types.set_Notice result (exceeded_notice (ThresholdRTT c)) in
        types.set_Degraded result true
      else types.set_Healthy result true
    else types.set_Healthy result true.

(** *** [Check] *)

(** How a block of [Check] ends: the function goes on, returns the result
    with an error, or panics. *)
Inductive flow (A : Type) :=
| Continue (a : A)
| Return (e : error)
| Crash (msg : string).
Arguments Continue {A} a.
Arguments Return {A} e.
Arguments Crash {A} msg.

(** The TLS configuration of the invocation: skip-verify and the pool of
    the CA file. *)
Definition tls_config (E : Env) (c : Checker) (s : State)
  : flow tls.Config * State :=
  let skip := if TLSSkipVerify c then TLSSkipVerify c else false in
  if negb (String.eqb (TLSCAFile c) "") then
    let s := emit (EvReadFile (TLSCAFile c)) s in
    match ReadFile E (TLSCAFile c) with
    | (_, true) => (Return errReadingRootCert, s)
    | (None, false) => (Return errReadingRootCert, s)
    | (Some rootPEM, false) =>
        let pool := match SystemCertPool E with
                    | Some p => p
                    | None => tls.NewCertPool
                    end in
        let '(pool, ok) := AppendCertsFromPEM E pool rootPEM in
        if negb ok then (Return errParsingRootCert, s)
        else (Continue (tls.mkConfig skip (Some pool)), s)
    end
  else (Continue (tls.mkConfig skip None), s).

(** The block [if c.Client == nil { ... }]: the checker takes the default
    client, whose transport is replaced by a clone with the dialer. *)
Definition default_client (E : Env) (c : Checker) (s : State)
  : flow Checker * State :=
  match Client c with
  | Some _ => (Continue c, s)
  | None =>
      let l := DefaultHTTPClient s in
      let c := set_Client c (Some l) in
      match tls_config E c s with
      | (Return e, s) => (Return e, s)
      | (Crash m, s) => (Crash m, s)
      | (Continue tlsConfig, s) =>
          let dialer := net_http.mkDialer (URL c) (5 * Second) tlsConfig in
          match heap s !! l with
          | None => (Crash "nil pointer dereference", s)
          | Some cl =>
              match net_http.Transport_ cl with
              | net_http.RT_Transport t =>
                  let tr := net_http.Clone t in
                  let tr := net_http.set_DialTLS tr dialer in
                  (Continue c,
                   store l (net_http.set_Transport cl (net_http.RT_Transport tr)) s)
              | _ => (Crash "interface conversion", s)
              end
          end
      end
  end.

(** The body of the closure [dialer]: the address that it connects to
    with TLS, or [errParsingURL] when the URL of the checker does not
    parse.  The port is 443 when the URL has none. *)
Definition dial_address (E : Env) (d : net_http.Dialer) : string + error :=
  match url_Parse E (net_http.dial_URL d) with
  | inr _ => inr errParsingURL
  | inl u =>
      let port := if String.eqb (url.Port u) "" then "443" else url.Port u in
      inl (url.Host u +:+ ":" +:+ port)
  end.

(** The loop over [c.Headers]. *)
Fixpoint add_headers (E : Env) (headers : list (string * list string))
    (req : net_http.Request) : outcome net_http.Request :=
  match headers with
  | [] => Done req
  | (key, header) :: rest =>
      let req := net_http.set_Header req
                   (Header_Add E (net_http.Header req) key (Join header ", ")) in
      if String.eqb (ToLower E key) "host" then
        match header with
        | [] => Panic "index out of range"
        | h0 :: _ => add_headers E rest (net_http.set_Host req h0)
        end
      else add_headers E rest req
  end.

(** The request that [Check] sends: [http.NewRequest] and the headers. *)
Definition build_request (E : Env) (c : Checker)
  : outcome (net_http.Request + error) :=
  match NewRequest E "GET" (URL c) with
  | inr e => Done (inr e)
  | inl req =>
      match add_headers E (Headers c) req with
      | Done req => Done (inl req)
      | Panic m => Panic m
      end
  end.

(** The result as [Check] prepares it. *)
Definition new_result (c : Checker) : types.Result :=
  let result := types.NewResult in
  let result := types.set_Title result (Name c) in
  types.set_Endpoint result (URL c).

(** The result that [Check] hands to [conclude]: the new result of the
    checker with the attempts in [result.Times]. *)
Definition attempted (c : Checker) (times : types.Attempts) : types.Result :=
  types.set_Times (new_result c) times.

Definition Check (E : Env) (c : Checker) (s : State)
  : outcome (types.Result * option error) * State :=
  let result := new_result c in
  let c := if Attempts c <? 1 then set_Attempts c 1 else c in
  match default_client E c s with
  | (Return e, s) => (Done (result, Some e), s)
  | (Crash m, s) => (Panic m, s)
  | (Continue c, s) =>
      let c := if UpStatus c =? 0 then set_UpStatus c net_http.StatusOK else c in
      match build_request E c with
      | Panic m => (Panic m, s)
      | Done (inr e) => (Done (result, Some e), s)
      | Done (inl req) =>
          match doChecks E c req s with
          | (Panic m, s) => (Panic m, s)
          | (Done times, s) =>
              (Done (conclude E c (types.set_Times result times), None), s)
          end
      end
  end.

(** [DefaultHTTPClient], as the package declares it. *)
Definition DefaultTransport : net_http.Transport :=
  {| net_http.ProxyFromEnvironment := true;
     net_http.DialTimeout := 10 * Second;
     net_http.DialKeepAlive := 0;
     net_http.TLSHandshakeTimeout := 5 * Second;
     net_http.ExpectContinueTimeout := 1 * Second;
     net_http.MaxIdleConnsPerHost := 1;
     net_http.DisableCompression := true;
     net_http.DisableKeepAlives := true;
     net_http.ResponseHeaderTimeout := 5 * Second;
     net_http.DialTLS := None |}.

Definition DefaultClient : net_http.Client :=
  {| net_http.Transport_ := net_http.RT_Transport DefaultTransport;
     net_http.CheckRedirect := net_http.UseLastResponse;
     net_http.Timeout := 10 * Second |}.

(** The state of the process when the package is initialised. *)
Definition init_state : State :=
  {| heap := {[ 0%nat := DefaultClient ]};
     DefaultHTTPClient := 0%nat;
     log := [] |}.

End http.

(** ** Reading the log of a run *)

(** The events that a run from [s] to [s'] has added to the log. *)
Definition emitted (s s' : State) : list Event :=
  drop (length (log s)) (log s').

(** The state [s] after the events [evs]. *)
Definition after (s : State) (evs : list Event) : State :=
  mkState (heap s) (DefaultHTTPClient s) (log s ++ evs).

(** The round trips among some events, oldest first: the result of each
    and its duration. *)
Definition round_trip_of (e : Event) : option (net_http.DoResult * Z) :=
  match e with
  | EvDo _ _ _ res rtt => Some (res, rtt)
  | _ => None
  end.

Definition round_trips (evs : list Event) : list (net_http.DoResult * Z) :=
  omap round_trip_of evs.

(** The kind of an event, without the data of a round trip. *)
Inductive Kind := KReadFile | KDo | KClose | KSleep (d : Z).

Definition kind_of (e : Event) : Kind :=
  match e with
  | EvReadFile _ => KReadFile
  | EvDo _ _ _ _ _ => KDo
  | EvClose => KClose
  | EvSleep d => KSleep d
  end.

(** The attempt record that [doChecks] writes for a round trip. *)
Definition record_of (c : http.Checker) (rt : net_http.DoResult * Z)
  : types.Attempt :=
  {| types.RTT := snd rt;
     types.Error :=
       match fst rt with
       | net_http.DoError msg => msg
       | net_http.DoResponse resp => default "" (http.checkDown c resp)
       end |}.

(** The checker with the defaults of [Check]: one attempt, status 200. *)
Definition with_defaults (c : http.Checker) : http.Checker :=
  let c := if http.Attempts c <? 1 then http.set_Attempts c 1 else c in
  if http.UpStatus c =? 0 then http.set_UpStatus c net_http.StatusOK else c.

(** The default client is there and its transport is a [*http.Transport],
    as the package declares it: the type assertion of [Check] holds. *)
Definition default_ready (s : State) : bool :=
  match heap s !! DefaultHTTPClient s with
  | Some cl =>
      match net_http.Transport_ cl with
      | net_http.RT_Transport _ => true
      | _ => false
      end
  | None => false
  end.

(** The checker has a client of its own, or the default client is ready. *)
Definition client_ready (c : http.Checker) (s : State) : bool :=
  match http.Client c with
  | Some _ => true
  | None => default_ready s
  end.

(** The checker as [Check] uses it once the client is settled. *)
Definition with_client (c : http.Checker) (s : State) : http.Checker :=
  match http.Client c with
  | Some _ => c
  | None => http.set_Client c (Some (DefaultHTTPClient s))
  end.

(** The checker that [Check] runs the attempts with. *)
Definition settled (c : http.Checker) (s : State) : http.Checker :=
  let c1 := if http.Attempts c <? 1 then http.set_Attempts c 1 else c in
  let c2 := with_client c1 s in
  if http.UpStatus c2 =? 0 then http.set_UpStatus c2 net_http.StatusOK else c2.

(** No name among the headers is [host] in lower case. *)
Definition host_free (E : Env) (headers : list (string * list string)) : bool :=
  forallb (fun kv => negb (String.eqb (ToLower E (fst kv)) "host")) headers.

(** The events of one attempt of [doChecks] through the client [cl] at [l],
    and the record of the attempt: a round trip; after a response, the body
    is closed and the spacing, when positive, is slept. *)
Inductive attempt_events (c : http.Checker) (l : loc) (cl : net_http.Client)
    (req : net_http.Request) : list Event -> types.Attempt -> Prop :=
| attempt_error msg rtt :
    attempt_events c l cl req
      [EvDo l cl req (net_http.DoError msg) rtt]
      (record_of c (net_http.DoError msg, rtt))
| attempt_response resp rtt :
    attempt_events c l cl req
      (EvDo l cl req (net_http.DoResponse resp) rtt :: EvClose ::
       (if 0 <? http.AttemptSpacing c
        then [EvSleep (http.AttemptSpacing c)] else []))
      (record_of c (net_http.DoResponse resp, rtt)).

(** The events of consecutive attempts and their records. *)
Inductive attempts_events (c : http.Checker) (l : loc) (cl : net_http.Client)
    (req : net_http.Request) : list Event -> types.Attempts -> Prop :=
| attempts_none : attempts_events c l cl req [] []
| attempts_more evs a rest ts :
    attempt_events c l cl req evs a ->
    attempts_events c l cl req rest ts ->
    attempts_events c l cl req (evs ++ rest)%list (a :: ts).

(** ** Package [appinsights]: the message of the exporter *)

Module appinsights.

(** The message that [Exporter.Send] gives to the availability telemetry. *)
Definition Send_message (conclude : types.Result) : string :=
  let attempts := length (types.Times conclude) in
  let message := types.Notice conclude in
  if types.Degraded conclude || types.Down conclude then
    let rtts := map (fun a => Duration_String (types.RTT a))
                    (types.Times conclude) in
    message +:+ " - Number of attempts = " +:+ itoa attempts
            +:+ " (" +:+ Join rtts " " +:+ ")"
  else message.

End appinsights.

(** ** A concrete environment, to run the checker *)

Module sample.

(** Insertion of a duration into a sorted list. *)
Fixpoint insert_sorted (x : Z) (l : list Z) : list Z :=
  match l with
  | [] => [x]
  | y :: rest => if x <=? y then x :: l else y :: insert_sorted x rest
  end.

Definition sort (l : list Z) : list Z := foldr insert_sorted [] l.

(** Modelled from the spec: [Result.ComputeStats] of package [types] is
    not among the sources.  The median is the numeric median of the
    recorded round-trip times; for an even count it is the average of the
    two middle values. *)
Definition ComputeStats (r : types.Result) : types.Stats :=
  let rtts := map types.RTT (types.Times r) in
  let sorted := sort rtts in
  let n := length sorted in
  let half := (n / 2)%nat in
  let median :=
    if (n mod 2 =? 0)%nat
    then (nth (half - 1) sorted 0 + nth half sorted 0) / 2
    else nth half sorted 0 in
  let total := foldr Z.add 0 rtts in
  {| types.Total := total;
     types.Mean := if (n =? 0)%nat then 0 else total / Z.of_nat n;
     types.Median := median;
     types.Min := nth 0 sorted 0;
     types.Max := nth (n - 1) sorted 0 |}.

Definition upper_byte (a : ascii) : ascii :=
  let n := nat_of_ascii a in
  if (97 <=? n)%nat && (n <=? 122)%nat then ascii_of_nat (n - 32) else a.

(** [textproto.CanonicalMIMEHeaderKey] on a name made of letters, digits
    and hyphens: a capital at the start and after each hyphen. *)
Fixpoint canonical (upper : bool) (s : string) : string :=
  match s with
  | EmptyString => EmptyString
  | String a s' =>
      String (if upper then upper_byte a else lower_byte a)
             (canonical (Ascii.eqb a "-"%char) s')
  end.

(** [url.Parse] on the URLs of the examples: a URL that starts with a
    colon has no protocol scheme and is refused. *)
Definition url_Parse (s : string) : url.URL + string :=
  if HasPrefix s ":" then inr "missing protocol scheme"
  else if HasPrefix s "https://" then
    inl (url.mkURL "https" (String.substring 8 (String.length s - 8) s) "" "")
  else inl (url.mkURL "" "" "" s).

(** One readable CA file, one file without a certificate, nothing else. *)
Definition ReadFile (path : string) : option (list Byte.byte) * bool :=
  if String.eqb path "/etc/ca.pem" then (Some [Byte.x2d; Byte.x2d], false)
  else if String.eqb path "/etc/empty.pem" then (Some [], false)
  else (None, true).

Definition CertsFromPEM (pem : list Byte.byte) : list tls.Cert :=
  match pem with
  | [] => []
  | _ :: _ => [pem]
  end.

Definition ok_response : net_http.Response :=
  net_http.mkResponse 200 "200 OK" (net_http.BodyBytes "OK").

(** The network: the host [down.example] refuses connections, the host
    [flaky.example] refuses the first one, every other host answers 200
    in 50ms. *)
Definition RoundTrip (history : list Event) (cl : net_http.Client)
    (req : net_http.Request) : net_http.DoResult * Z :=
  if String.eqb (net_http.Host req) "down.example" then
    (net_http.DoError "connection refused", 1 * Millisecond)
  else if String.eqb (net_http.Host req) "flaky.example"
          && match history with [] => true | _ :: _ => false end then
    (net_http.DoError "connection refused", 1 * Millisecond)
  else (net_http.DoResponse ok_response, 50 * Millisecond).

Definition env : Env :=
  mkEnv ReadFile None CertsFromPEM url_Parse ascii_ToLower (canonical true)
        RoundTrip ComputeStats.

(** A checker with the given URL and every other field zero. *)
Definition checker (target : string) : http.Checker :=
  {| http.Name := "sample"; http.URL := target; http.UpStatus := 0;
     http.ThresholdRTT := 0; http.MustContain := ""; http.MustNotContain := "";
     http.Attempts := 0; http.AttemptSpacing := 0;
     http.TLSSkipVerify := false; http.TLSCAFile := "";
     http.Client := None; http.Headers := [] |}.

Definition with_Attempts (n : Z) (c : http.Checker) : http.Checker :=
  http.set_Attempts c n.

Definition with_Spacing (d : Z) (c : http.Checker) : http.Checker :=
  http.mkChecker (http.Name c) (http.URL c) (http.UpStatus c)
    (http.ThresholdRTT c) (http.MustContain c) (http.MustNotContain c)
    (http.Attempts c) d (http.TLSSkipVerify c) (http.TLSCAFile c)
    (http.Client c) (http.Headers c).

Definition with_Threshold (t : Z) (c : http.Checker) : http.Checker :=
  http.mkChecker (http.Name c) (http.URL c) (http.UpStatus c)
    t (http.MustContain c) (http.MustNotContain c)
    (http.Attempts c) (http.AttemptSpacing c) (http.TLSSkipVerify c)
    (http.TLSCAFile c) (http.Client c) (http.Headers c).

Definition with_CAFile (path : string) (c : http.Checker) : http.Checker :=
  http.mkChecker (http.Name c) (http.URL c) (http.UpStatus c)
    (http.ThresholdRTT c) (http.MustContain c) (http.MustNotContain c)
    (http.Attempts c) (http.AttemptSpacing c) (http.TLSSkipVerify c)
    path (http.Client c) (http.Headers c).

Definition with_Headers (h : list (string * list string)) (c : http.Checker)
  : http.Checker :=
  http.mkChecker (http.Name c) (http.URL c) (http.UpStatus c)
    (http.ThresholdRTT c) (http.MustContain c) (http.MustNotContain c)
    (http.Attempts c) (http.AttemptSpacing c) (http.TLSSkipVerify c)
    (http.TLSCAFile c) (http.Client c) h.

Definition with_Client (l : loc) (c : http.Checker) : http.Checker :=
  http.set_Client c (Some l).

(** The request for [https://up.example], without headers. *)
Definition request : net_http.Request :=
  net_http.mkRequest "GET" (url.mkURL "https" "up.example" "" "")
    "up.example" ∅.

(** Three attempts without failure that took 500ms each, and one attempt
    that was refused. *)
Definition slow : types.Attempts :=
  replicate 3 {| types.RTT := 500 * Millisecond; types.Error := "" |}.

Definition refused : types.Attempts :=
  [{| types.RTT := 1 * Millisecond; types.Error := "connection refused" |}].

End sample.

(** ** Reading responses, logs and clients *)

(** [sub] occurs in [s]. *)
Definition substring (sub s : string) : Prop :=
  exists pre post, s = pre +:+ sub +:+ post.

(** A round trip that makes the attempt fail: a transport error with a
    description, or a response that [checkDown] refuses. *)
Definition rejected (c : http.Checker) (res : net_http.DoResult) : bool :=
  match res with
  | net_http.DoError msg => negb (String.eqb msg "")
  | net_http.DoResponse resp =>
      match http.checkDown c resp with
      | Some _ => true
      | None => false
      end
  end.

Definition is_response (rt : net_http.DoResult * Z) : bool :=
  match fst rt with
  | net_http.DoResponse _ => true
  | net_http.DoError _ => false
  end.

Definition is_close (e : Event) : bool :=
  match e with EvClose => true | _ => false end.

Definition is_sleep (e : Event) : bool :=
  match e with EvSleep _ => true | _ => false end.

Definition is_read_file (e : Event) : bool :=
  match e with EvReadFile _ => true | _ => false end.

(** How many elements of a list satisfy a test. *)
Definition count {A} (f : A -> bool) (l : list A) : nat :=
  length (List.filter f l).

(** A client without the dialer of its transport: what is left is the
    policy that the package declares. *)
Definition without_dialer (cl : net_http.Client) : net_http.Client :=
  match net_http.Transport_ cl with
  | net_http.RT_Transport t =>
      net_http.set_Transport cl
        (net_http.RT_Transport
           (net_http.mkTransport
              (net_http.ProxyFromEnvironment t) (net_http.DialTimeout t)
              (net_http.DialKeepAlive t) (net_http.TLSHandshakeTimeout t)
              (net_http.ExpectContinueTimeout t)
              (net_http.MaxIdleConnsPerHost t) (net_http.DisableCompression t)
              (net_http.DisableKeepAlives t) (net_http.ResponseHeaderTimeout t)
              None))
  | _ => cl
  end.

(** The dialer that a client carries, if any. *)
Definition dialer_of (cl : net_http.Client) : option net_http.Dialer :=
  match net_http.Transport_ cl with
  | net_http.RT_Transport t => net_http.DialTLS t
  | _ => None
  end.

(** ** Package [appinsights]: [Send] and [Export] *)

Module telemetry.

(** [Exporter]; [TelemetryClient] is an interface value, [false] when it
    is nil.  The items that the client has tracked are the state. *)
Record Exporter := mkExporter {
  InstrumentationKey : string;
  TestName : string;
  TestLocation : string;
  TelemetryClient : bool
}.

(** The availability telemetry, the fields that [Send] sets. *)
Record Availability := mkAvailability {
  Name : string;
  Duration : Z;
  Success : bool;
  RunLocation : string;
  Message : string
}.

(** The item that [Send] builds for a result. *)
Definition availability (x : Exporter) (conclude : types.Result)
  : Availability :=
  {| Name := types.Title conclude;
     Duration := types.Mean (types.Stats_ conclude);
     Success := types.Healthy conclude;
     RunLocation := TestLocation x;
     Message := appinsights.Send_message conclude |}.

(** [Exporter.Send]: the item is tracked and the error is nil; a nil
    client panics. *)
Definition Send (x : Exporter) (conclude : types.Result)
    (tracked : list Availability) : outcome (option string) * list Availability :=
  if TelemetryClient x
  then (Done None, tracked ++ [availability x conclude])
  else (Panic "nil pointer dereference", tracked).

(** The loop of [Exporter.Export], with the errors collected so far. *)
Fixpoint Export_loop (x : Exporter) (results : list types.Result)
    (errs : list string) (tracked : list Availability)
  : outcome (list string) * list Availability :=
  match results with
  | [] => (Done errs, tracked)
  | result :: rest =>
      match Send x result tracked with
      | (Done (Some err), tracked) => Export_loop x rest (errs ++ [err]) tracked
      | (Done None, tracked) => Export_loop x rest errs tracked
      | (Panic m, tracked) => (Panic m, tracked)
      end
  end.

(** [Exporter.Export]: the value returned is the list [errs]. *)
Definition Export (x : Exporter) (results : list types.Result)
    (tracked : list Availability)
  : outcome (list string) * list Availability :=
  Export_loop x results [] tracked.

(** [New]: the exporter is decoded from the configuration by
    [json.Unmarshal], here [decode], whose error is returned with the
    exporter; the location gets its default; the client is the one that
    [appinsights.NewTelemetryClient] of the SDK, here [newClient],
    returns for the key ([false] when it returns nil). *)
Definition New (decode : string -> Exporter * option string)
    (newClient : string -> bool) (config : string)
  : Exporter * option string :=
  let '(exporter, err) := decode config in
  let exporter :=
    if String.eqb (TestLocation exporter) ""
    then mkExporter (InstrumentationKey exporter) (TestName exporter)
           "Checkup Exporter" (TelemetryClient exporter)
    else exporter in
  let exporter :=
    mkExporter (InstrumentationKey exporter) (TestName exporter)
      (TestLocation exporter) (newClient (InstrumentationKey exporter)) in
  (exporter, err).

End telemetry.

(** ** Package [azblob]: the storage of the results *)

Module azblob.

Definition Minute : Z := 60 * Second.
Definition Hour : Z := 60 * Minute.

(** The least and the greatest [time.Duration]. *)
Definition minDuration : Z := - 2 ^ 63.
Definition maxDuration : Z := 2 ^ 63 - 1.

(** [t.Sub(u)] on times in nanoseconds: the difference, or the nearest
    duration when the difference is out of range. *)
Definition time_Sub (t u : Z) : Z :=
  Z.max minDuration (Z.min maxDuration (t - u)).

(** [azblob.BlobItem], the two fields that are read. *)
Record BlobItem := mkBlobItem {
  Name : string;
  LastModified : Z
}.

(** [azblob.Marker]: [Val] is a pointer to a string, [None] when nil. *)
Definition Marker := option string.

(** [Marker.NotDone]: the enumeration is to be started or goes on. *)
Definition NotDone (m : Marker) : bool :=
  match m with
  | None => true
  | Some v => negb (String.eqb v "")
  end.

(** What a run does to the outside: it reads the clock, logs a warning,
    lists a segment of the container, deletes or uploads a blob through a
    SAS URL. *)
Inductive Event :=
| EvNow (t : Z)
| EvLog (msg : string)
| EvList (marker : Marker) (res : list BlobItem * Marker + string)
| EvDelete (sas : string) (blob : string) (err : option string)
| EvUpload (sas : string) (blob : string) (body : string) (err : option string).

(** How a function ends: it returns, [log.Fatal] ends the process, it
    panics, or the model has no fuel left for the loop over the markers. *)
Inductive exit (A : Type) :=
| Returned (a : A)
| Fatal (msg : string)
| Panicked (msg : string)
| OutOfFuel.
Arguments Returned {A} a.
Arguments Fatal {A} msg.
Arguments Panicked {A} msg.
Arguments OutOfFuel {A}.

(** [Storage]; [SASURL] is a pointer to a URL, given by its text. *)
Record Storage := mkStorage {
  SASURL : option string;
  AccountName : string;
  AccountKey : string;
  ContainerName : string;
  CheckExpiry : Z
}.

Definition set_SASURL (s : Storage) (u : option string) : Storage :=
  mkStorage u (AccountName s) (AccountKey s) (ContainerName s) (CheckExpiry s).

(** The clock, the Azure SDK and the functions of other packages.  An
    error is given by its description; [None] is the nil error. *)
Record Azure := mkAzure {
  (* [time.Now], given what happened before *)
  Now : list Event -> Z;
  (* [azblob.NewSharedKeyCredential(account, key)]: its error *)
  NewSharedKeyCredential : string -> string -> option string;
  (* [BlobSASSignatureValues{...}.NewSASQueryParameters(credentials)],
     encoded: expiry, container, permissions, account and key *)
  NewSASQueryParameters :
    Z -> string -> string -> string -> string -> string + string;
  (* [url.Parse]: its error *)
  url_Parse : string -> option string;
  (* [azblob.NewBlobURLParts(u).SAS.ExpiryTime()] *)
  ExpiryTime : string -> Z;
  (* [t.Format(time.RFC3339)] *)
  FormatRFC3339 : Z -> string;
  (* [containerSvc.ListBlobsFlatSegment], for account, container, marker *)
  ListBlobsFlatSegment :
    list Event -> string -> string -> Marker -> list BlobItem * Marker + string;
  (* [blobURL.Delete] of a blob through a SAS URL: its error *)
  Delete : list Event -> string -> string -> option string;
  (* [blobURL.Upload] of a body to a blob through a SAS URL: its error *)
  Upload : list Event -> string -> string -> string -> option string;
  (* [json.Marshal] of the results *)
  Marshal : list types.Result -> string + string;
  (* [fs.GenerateFilename] of package [storage/fs] *)
  GenerateFilename : list Event -> string
}.

(** *** [Maintain] *)

(** The loop over the blobs of one segment: a blob whose age, read off
    the clock, exceeds [CheckExpiry] is appended to [blobsToDelete]. *)
Fixpoint mark_old (A : Azure) (s : Storage) (items : list BlobItem)
    (blobsToDelete : list BlobItem) (h : list Event)
  : list BlobItem * list Event :=
  match items with
  | [] => (blobsToDelete, h)
  | b :: rest =>
      let now := Now A h in
      let h := h ++ [EvNow now] in
      if CheckExpiry s <? time_Sub now (LastModified b)
      then mark_old A s rest (blobsToDelete ++ [b]) h
      else mark_old A s rest blobsToDelete h
  end.

(** The loop over the markers, with [fuel] calls of the service left. *)
Fixpoint list_blobs (A : Azure) (fuel : nat) (s : Storage) (marker : Marker)
    (blobsToDelete : list BlobItem) (h : list Event)
  : exit (list BlobItem) * list Event :=
  if NotDone marker then
    match fuel with
    | O => (OutOfFuel, h)
    | S fuel =>
        let res := ListBlobsFlatSegment A h (AccountName s) (ContainerName s)
                     marker in
        let h := h ++ [EvList marker res] in
        match res with
        | inr err => (Fatal ("Cannot list Azure Blob container: " +:+ err), h)
        | inl (items, next) =>
            let '(blobsToDelete, h) := mark_old A s items blobsToDelete h in
            list_blobs A fuel s next blobsToDelete h
        end
    end
  else (Returned blobsToDelete, h).

(** The loop over [blobsToDelete]. *)
Fixpoint delete_blobs (A : Azure) (s : Storage) (blobsToDelete : list BlobItem)
    (h : list Event) : exit (option string) * list Event :=
  match blobsToDelete with
  | [] => (Returned None, h)
  | del :: rest =>
      match SASURL s with
      | None => (Panicked "nil pointer dereference", h)
      | Some sas =>
          let err := Delete A h sas (Name del) in
          let h := h ++ [EvDelete sas (Name del) err] in
          match err with
          | Some err =>
              (Fatal ("Cannot delete blobs in Azure Blob container: " +:+ err), h)
          | None => delete_blobs A s rest h
          end
      end
  end.

Definition Maintain (A : Azure) (fuel : nat) (s : Storage) (h : list Event)
  : exit (option string) * list Event :=
  if CheckExpiry s =? 0 then (Returned None, h)
  else if String.eqb (AccountName s) "" || String.eqb (AccountKey s) "" then
    (Fatal "Must supply both a valid Azure Storage Account Name and Account Key",
     h)
  else
    match NewSharedKeyCredential A (AccountName s) (AccountKey s) with
    | Some err => (Fatal ("Cannot create Azure Storage credential: " +:+ err), h)
    | None =>
        match url_Parse A ("https://" +:+ AccountName s
                           +:+ ".blob.core.windows.net") with
        | Some _ => (Panicked "nil pointer dereference", h)
        | None =>
            match list_blobs A fuel s None [] h with
            | (Returned blobsToDelete, h) => delete_blobs A s blobsToDelete h
            | (Fatal msg, h) => (Fatal msg, h)
            | (Panicked msg, h) => (Panicked msg, h)
            | (OutOfFuel, h) => (OutOfFuel, h)
            end
        end
    end.

(** *** [checkSASURL], [getSASURL] and [Store] *)

Definition checkSASURL (A : Azure) (s : Storage) (h : list Event)
  : bool * list Event :=
  match SASURL s with
  | Some u =>
      let expiresAt := ExpiryTime A u in
      let now := Now A h in
      let h := h ++ [EvNow now] in
      if expiresAt <? now + 15 * Minute then
        (false,
         h ++ [EvLog ("Warning: SAS expiry within 15 minutes at "
                      +:+ FormatRFC3339 A expiresAt +:+ ".  Continuing.")])
      else (true, h)
  | None => (false, h)
  end.

(** [getSASURL]: the URL, or the description of the error. *)
Definition getSASURL (A : Azure) (s : Storage) (h : list Event)
  : (string + string) * list Event :=
  match NewSharedKeyCredential A (AccountName s) (AccountKey s) with
  | Some err => (inr err, h)
  | None =>
      let now := Now A h in
      let h := h ++ [EvNow now] in
      match NewSASQueryParameters A (now + 48 * Hour) (ContainerName s) "racwd"
              (AccountName s) (AccountKey s) with
      | inr err => (inr err, h)
      | inl qp =>
          let u := "https://" +:+ AccountName s +:+ ".blob.core.windows.net/"
                   +:+ ContainerName s +:+ "/?" +:+ qp in
          match url_Parse A u with
          | Some err => (inr err, h)
          | None => (inl u, h)
          end
      end
  end.

Definition Store (A : Azure) (s : Storage) (results : list types.Result)
    (h : list Event) : exit (option string) * list Event :=
  match Marshal A results with
  | inr err => (Returned (Some err), h)
  | inl jsonBytes =>
      let renewed :=
        match SASURL s with
        | None =>
            match getSASURL A s h with
            | (inr err, h) => (Fatal err, h)
            | (inl u, h) => (Returned (set_SASURL s (Some u)), h)
            end
        | Some _ => (Returned s, h)
        end in
      match renewed with
      | (Returned s, h) =>
          match checkSASURL A s h with
          | (false, h) =>
              (Fatal ("Failed to get valid storage SAS for storage account "
                      +:+ AccountName s), h)
          | (true, h) =>
              match SASURL s with
              | None => (Panicked "nil pointer dereference", h)
              | Some sas =>
                  let blob := GenerateFilename A h in
                  let err := Upload A h sas blob jsonBytes in
                  let h := h ++ [EvUpload sas blob jsonBytes err] in
                  match err with
                  | Some err => (Fatal ("Cannot upload Azure Blob: " +:+ err), h)
                  | None => (Returned None, h)
                  end
              end
          end
      | (Fatal msg, h) => (Fatal msg, h)
      | (Panicked msg, h) => (Panicked msg, h)
      | (OutOfFuel, h) => (OutOfFuel, h)
      end
  end.

(** *** Reading the events *)

(** The blobs that successful listings returned, in order. *)
Fixpoint listed (evs : list Event) : list BlobItem :=
  match evs with
  | [] => []
  | EvList _ (inl (items, _)) :: rest => items ++ listed rest
  | _ :: rest => listed rest
  end.

(** The readings of the clock, in order. *)
Fixpoint readings (evs : list Event) : list Z :=
  match evs with
  | [] => []
  | EvNow t :: rest => t :: readings rest
  | _ :: rest => readings rest
  end.

Definition is_delete (e : Event) : bool :=
  match e with EvDelete _ _ _ => true | _ => false end.

Definition is_upload (e : Event) : bool :=
  match e with EvUpload _ _ _ _ => true | _ => false end.

Definition is_failed_list (e : Event) : bool :=
  match e with EvList _ (inr _) => true | _ => false end.

(** The blobs that are older than [expiry], each at the time read for
    it. *)
Definition old_blobs (expiry : Z) (measured : list (BlobItem * Z))
  : list BlobItem :=
  map fst (List.filter
             (fun bt => expiry <? time_Sub (snd bt) (LastModified (fst bt)))
             measured).

End azblob.

(** ** A concrete storage account, to run the storage *)

Module sample_azure.

Definition Day : Z := 24 * azblob.Hour.

(** The clock: a hundred days after the origin, and one nanosecond more
    with each event. *)
Definition Now (h : list azblob.Event) : Z := 100 * Day + Z.of_nat (length h).

Definition blob_old : azblob.BlobItem := azblob.mkBlobItem "10-check.json" (10 * Day).
Definition blob_new : azblob.BlobItem := azblob.mkBlobItem "99-check.json" (99 * Day).
Definition blob_older : azblob.BlobItem := azblob.mkBlobItem "1-check.json" (1 * Day).

(** The container has two segments; the account [broken] cannot be
    listed. *)
Definition ListBlobsFlatSegment (h : list azblob.Event)
    (account container : string) (marker : azblob.Marker)
  : list azblob.BlobItem * azblob.Marker + string :=
  if String.eqb account "broken" then inr "service unavailable"
  else
    match marker with
    | None => inl ([blob_old; blob_new], Some "segment-2")
    | Some _ => inl ([blob_older], Some "")
    end.

(** The SAS URL [https://stale] has expired; every other one expires on
    day 200. *)
Definition ExpiryTime (u : string) : Z :=
  if String.eqb u "https://stale" then 50 * Day else 200 * Day.

Definition env : azblob.Azure :=
  azblob.mkAzure Now
    (fun _ _ => None)
    (fun expiry container permissions account key => inl "sig=0")
    (fun _ => None)
    ExpiryTime
    (fun _ => "1970-01-01T00:00:00Z")
    ListBlobsFlatSegment
    (fun _ _ _ => None)
    (fun _ _ _ _ => None)
    (fun _ => inl "[]")
    (fun _ => "100-check.json").

Definition storage (account : string) (sas : option string) : azblob.Storage :=
  azblob.mkStorage sas account "a2V5" "checks" (30 * Day).

End sample_azure.

(** * Properties *)

(** ** The library functions on examples *)

Example Duration_String_200ms : Duration_String (200 * Millisecond) = "200ms".
Proof. vm_compute. reflexivity. Qed.

Example Duration_String_mixed :
  Duration_String (3723 * Second + 500 * Millisecond) = "1h2m3.5s".
Proof. vm_compute. reflexivity. Qed.

Example Duration_String_zero : Duration_String 0 = "0s".
Proof. reflexivity. Qed.

Example Duration_String_neg : Duration_String (-1500) = "-1.5" +:+ micro +:+ "s".
Proof. vm_compute. reflexivity. Qed.

Example Join_three : Join ["a"; "b"; "c"] ", " = "a, b, c".
Proof. reflexivity. Qed.

Example Contains_world : Contains "Hello World" "World" = true.
Proof. reflexivity. Qed.

Example itoa_12 : itoa 12 = "12".
Proof. vm_compute. reflexivity. Qed.

(** ** The verdict aggregator, [conclude] *)

Section Conclude.

Context (E : Env).

Implicit Types (c : http.Checker) (r : types.Result) (ts : types.Attempts).

(** The loop of [conclude] finds an error exactly when an attempt has one. *)
Lemma any_error_iff ts :
  http.any_error ts = true <-> exists a, In a ts /\ types.Error a <> "".
Proof.
  induction ts as [|a ts IH]; simpl.
  - split; [discriminate | intros (a & [] & _)].
  - destruct (String.eqb_spec (types.Error a) "") as [He|He]; simpl.
    + rewrite IH. split.
      * intros (b & Hb & Hne). exists b. auto.
      * intros (b & [<-|Hb] & Hne); [contradiction | eauto].
    + split; [|reflexivity]. intros _. exists a. auto.
Qed.

Lemma any_error_false ts :
  http.any_error ts = false <-> forall a, In a ts -> types.Error a = "".
Proof.
  split.
  - intros Hf a Ha. destruct (String.eqb_spec (types.Error a) "") as [|Hne]; [done|].
    assert (http.any_error ts = true) by (apply any_error_iff; eauto).
    congruence.
  - intros Hall. destruct (http.any_error ts) eqn:Ht; [|done].
    apply any_error_iff in Ht as (a & Ha & Hne). specialize (Hall a Ha). done.
Qed.

(** [conclude] when an attempt has an error: only the threshold and the
    flag [Down] are written. *)
Lemma conclude_down c r :
  http.any_error (types.Times r) = true ->
  http.conclude E c r =
  types.set_Down (types.set_ThresholdRTT r (http.ThresholdRTT c)) true.
Proof. intros H. unfold http.conclude. simpl. by rewrite H. Qed.

(** [conclude] when no attempt has an error and the median lies above a
    positive threshold. *)
Lemma conclude_degraded c r :
  http.any_error (types.Times r) = false ->
  0 < http.ThresholdRTT c ->
  http.ThresholdRTT c <
    types.Median (ComputeStats E (types.set_ThresholdRTT r (http.ThresholdRTT c))) ->
  http.conclude E c r =
  types.set_Degraded
    (types.set_Notice
       (types.set_Stats (types.set_ThresholdRTT r (http.ThresholdRTT c))
          (ComputeStats E (types.set_ThresholdRTT r (http.ThresholdRTT c))))
       (http.exceeded_notice (http.ThresholdRTT c))) true.
Proof.
  intros H Hpos Hlt. unfold http.conclude. simpl. rewrite H.
  destruct (Z.ltb_spec 0 (http.ThresholdRTT c)); [|lia].
  simpl. destruct (Z.ltb_spec (http.ThresholdRTT c)
    (types.Median (ComputeStats E (types.set_ThresholdRTT r (http.ThresholdRTT c)))));
    [done | lia].
Qed.

(** [conclude] in the remaining cases: the verdict is healthy. *)
Lemma conclude_healthy c r :
  http.any_error (types.Times r) = false ->
  (http.ThresholdRTT c <= 0 \/
   types.Median (ComputeStats E (types.set_ThresholdRTT r (http.ThresholdRTT c)))
     <= http.ThresholdRTT c) ->
  types.Healthy (http.conclude E c r) = true /\
  types.Degraded (http.conclude E c r) = types.Degraded r /\
  types.Down (http.conclude E c r) = types.Down r /\
  types.Notice (http.conclude E c r) = types.Notice r.
Proof.
  intros H Hcase. unfold http.conclude. simpl. rewrite H.
  destruct (Z.ltb_spec 0 (http.ThresholdRTT c)); simpl; [|done].
  destruct (Z.ltb_spec (http.ThresholdRTT c)
    (types.Median (ComputeStats E (types.set_ThresholdRTT r (http.ThresholdRTT c)))));
    simpl; [lia | done].
Qed.

End Conclude.

Section Verdict.

Context (E : Env).

Implicit Types (c : http.Checker) (ts : types.Attempts).

Lemma conclude_Times c r :
  types.Times (http.conclude E c r) = types.Times r.
Proof.
  unfold http.conclude. simpl.
  repeat match goal with |- context [if ?b then _ else _] => destruct b end;
    reflexivity.
Qed.

(** C1. The verdict is down if and only if at least one attempt record
    has a non-empty failure description; and when an attempt failed, the
    latency check is not evaluated: the verdict is neither degraded nor
    healthy, its statistics are those of the new result, and it is the
    same whatever [ComputeStats] and the rest of the environment are. *)
Theorem conclude_down_iff_attempt_failed c c0 ts :
  let v := http.conclude E c (http.attempted c0 ts) in
  (types.Down v = true <-> exists a, In a ts /\ types.Error a <> "") /\
  ((exists a, In a ts /\ types.Error a <> "") ->
   types.Degraded v = false /\ types.Healthy v = false /\
   types.Stats_ v = types.zeroStats /\
   forall E', http.conclude E' c (http.attempted c0 ts) = v).
Proof.
  intros v. subst v. split.
  - rewrite <- any_error_iff.
    destruct (http.any_error ts) eqn:Hany.
    + rewrite conclude_down by exact Hany. simpl. tauto.
    + unfold http.conclude. simpl. rewrite Hany.
      repeat match goal with |- context [if ?b then _ else _] => destruct b end;
        simpl; split; congruence.
  - intros Hex. apply any_error_iff in Hex.
    rewrite !conclude_down by exact Hex. simpl.
    repeat split. intros E'. by rewrite conclude_down by exact Hex.
Qed.

(** C2, as the code has it.  When no attempt failed, the verdict is
    degraded if and only if the threshold is strictly positive and the
    computed median strictly exceeds it (a median equal to the threshold
    yields healthy); otherwise the verdict is healthy; it is never down;
    and the notice of a degraded verdict names the threshold. *)
Theorem conclude_degraded_iff_median_exceeds c c0 ts :
  (forall a, In a ts -> types.Error a = "") ->
  let r := http.attempted c0 ts in
  let v := http.conclude E c r in
  let median :=
    types.Median (ComputeStats E (types.set_ThresholdRTT r (http.ThresholdRTT c))) in
  (types.Degraded v = true <->
     0 < http.ThresholdRTT c /\ http.ThresholdRTT c < median) /\
  types.Healthy v = negb (types.Degraded v) /\
  types.Down v = false /\
  (types.Degraded v = true ->
   types.Notice v =
     "median round trip time exceeded threshold ("
       +:+ Duration_String (http.ThresholdRTT c) +:+ ")").
Proof.
  intros Hok r v median. apply any_error_false in Hok.
  assert (Hcases :
    (0 < http.ThresholdRTT c /\ http.ThresholdRTT c < median) \/
    (http.ThresholdRTT c <= 0 \/ median <= http.ThresholdRTT c)) by lia.
  destruct Hcases as [[Hpos Hlt]|Hle].
  - subst v. rewrite conclude_degraded by (assumption || exact Hok).
    simpl. repeat split; auto.
  - destruct (conclude_healthy E c r Hok Hle) as (Hh & Hd & Hn & _).
    fold v in Hh, Hd, Hn. simpl in Hd, Hn. rewrite Hh, Hd, Hn.
    repeat split; try discriminate. intros [? ?]. lia.
Qed.

(** C3. Exactly one of the three health flags of a verdict is set. *)
Theorem conclude_exactly_one_flag c c0 ts :
  let v := http.conclude E c (http.attempted c0 ts) in
  (types.Healthy v = true /\ types.Degraded v = false /\ types.Down v = false) \/
  (types.Healthy v = false /\ types.Degraded v = true /\ types.Down v = false) \/
  (types.Healthy v = false /\ types.Degraded v = false /\ types.Down v = true).
Proof.
  intros v. subst v. unfold http.conclude. simpl.
  repeat match goal with |- context [if ?b then _ else _] => destruct b end;
    simpl; tauto.
Qed.

Lemma append_nonempty_r (a b : string) : b <> "" -> a +:+ b <> "".
Proof. destruct a; simpl; [auto | discriminate]. Qed.

(** C9, as the code has it.  A degraded verdict carries the non-empty
    notice that names the threshold; the notice of a down verdict is
    empty; the summary of the attempt count and of the round-trip time of
    each attempt is appended to the notice by the exporter, in the
    message that it sends for a down or degraded verdict. *)
Theorem notice_and_exporter_message c c0 ts :
  let v := http.conclude E c (http.attempted c0 ts) in
  (types.Degraded v = true ->
   types.Notice v = http.exceeded_notice (http.ThresholdRTT c) /\
   types.Notice v <> "") /\
  (types.Down v = true -> types.Notice v = "") /\
  (types.Degraded v = true \/ types.Down v = true ->
   appinsights.Send_message v =
     types.Notice v +:+ " - Number of attempts = " +:+ itoa (length ts)
       +:+ " (" +:+ Join (map (fun a => Duration_String (types.RTT a)) ts) " "
       +:+ ")" /\
   appinsights.Send_message v <> "").
Proof.
  intros v.
  assert (Hmsg : types.Degraded v = true \/ types.Down v = true ->
    appinsights.Send_message v =
     types.Notice v +:+ " - Number of attempts = " +:+ itoa (length ts)
       +:+ " (" +:+ Join (map (fun a => Duration_String (types.RTT a)) ts) " "
       +:+ ")").
  { intros Hflag. unfold appinsights.Send_message.
    replace (types.Times v) with ts by (subst v; by rewrite conclude_Times).
    destruct Hflag as [-> | ->]; [done|]. by rewrite orb_true_r. }
  split; [|split].
  - subst v. unfold http.conclude. simpl.
    repeat match goal with |- context [if ?b then _ else _] => destruct b end;
      simpl; try discriminate.
    intros _. split; [done | discriminate].
  - subst v. unfold http.conclude. simpl.
    repeat match goal with |- context [if ?b then _ else _] => destruct b end;
      simpl; try discriminate; done.
  - intros Hflag. rewrite (Hmsg Hflag). split; [done|].
    apply append_nonempty_r. discriminate.
Qed.

End Verdict.

(** ** The attempt executor, [doChecks] *)

Section Executor.

Context (E : Env).

Implicit Types (c : http.Checker) (s : State) (req : net_http.Request).

Lemma after_nil s : after s [] = s.
Proof. destruct s. unfold after. simpl. by rewrite app_nil_r. Qed.

Lemma after_after s evs evs' : after (after s evs) evs' = after s (evs ++ evs').
Proof. unfold after. simpl. by rewrite app_assoc. Qed.

Lemma emit_after e s : emit e s = after s [e].
Proof. reflexivity. Qed.

Lemma emitted_after s evs : emitted s (after s evs) = evs.
Proof. unfold emitted, after. simpl. by rewrite drop_app_length. Qed.

Lemma alter_middle {A} (f : A -> A) (done : list A) (x : A) (rest : list A) :
  alter f (length done) (done ++ x :: rest) = (done ++ f x :: rest)%list.
Proof. induction done as [|y done IH]; simpl; [done | by f_equal]. Qed.

Lemma assign_at_middle f (done : types.Attempts) x rest :
  http.assign_at (length done) f (done ++ x :: rest) =
  Done (done ++ f x :: rest)%list.
Proof.
  unfold http.assign_at, types.Attempts.
  rewrite (list_lookup_middle done rest x (length done) eq_refl).
  by rewrite alter_middle.
Qed.

(** One iteration writes the record of its round trip at its index and
    adds the events of one attempt; it does not panic. *)
Lemma doChecks_body_spec c req l cl (done rest : types.Attempts) s :
  http.Client c = Some l ->
  heap s !! l = Some cl ->
  exists evs a,
    http.doChecks_body E c req (length done)
      (done ++ types.zeroAttempt :: rest) s
    = (Done (done ++ a :: rest)%list, after s evs) /\
    attempt_events c l cl req evs a.
Proof.
  intros Hc Hl. unfold http.doChecks_body. rewrite Hc, Hl.
  destruct (RoundTrip E (log s) cl req) as [res rtt].
  rewrite assign_at_middle. destruct res as [msg|resp].
  - rewrite assign_at_middle.
    exists [EvDo l cl req (net_http.DoError msg) rtt], (record_of c (net_http.DoError msg, rtt)).
    split; [reflexivity | constructor].
  - exists (EvDo l cl req (net_http.DoResponse resp) rtt :: EvClose ::
            (if 0 <? http.AttemptSpacing c
             then [EvSleep (http.AttemptSpacing c)] else [])),
           (record_of c (net_http.DoResponse resp, rtt)).
    split; [|constructor].
    rewrite !emit_after, after_after.
    unfold record_of. simpl.
    destruct (http.checkDown c resp) as [msg|]; [rewrite assign_at_middle|];
      simpl; destruct (0 <? http.AttemptSpacing c);
      by rewrite ?emit_after, ?after_after.
Qed.

(** The loop fills the remaining entries in order and never panics. *)
Lemma doChecks_loop_spec c req l cl n :
  forall (done : types.Attempts) s,
  http.Client c = Some l ->
  heap s !! l = Some cl ->
  exists evs ts,
    http.doChecks_loop E c req n (length done)
      (done ++ replicate n types.zeroAttempt) s
    = (Done (done ++ ts)%list, after s evs) /\
    attempts_events c l cl req evs ts /\
    length ts = n.
Proof.
  induction n as [|n IH]; intros done s Hc Hl; simpl.
  - exists [], []. rewrite after_nil. repeat split. constructor.
  - destruct (doChecks_body_spec c req l cl done
                (replicate n types.zeroAttempt) s Hc Hl)
      as (evs & a & -> & Hev).
    destruct (IH (done ++ [a])%list (after s evs) Hc Hl)
      as (evs' & ts & Hloop & Hevs & Hlen).
    rewrite length_app, Nat.add_1_r, <- app_assoc in Hloop. simpl in Hloop.
    rewrite Hloop. exists (evs ++ evs')%list, (a :: ts).
    rewrite after_after, <- app_assoc. simpl.
    repeat split; [by constructor | by rewrite Hlen].
Qed.

(** [doChecks] returns, with one record for each of the [c.Attempts]
    attempts, and the log grows by the events of these attempts. *)
Lemma doChecks_spec c req l cl s :
  0 <= http.Attempts c ->
  http.Client c = Some l ->
  heap s !! l = Some cl ->
  exists evs ts,
    http.doChecks E c req s = (Done ts, after s evs) /\
    attempts_events c l cl req evs ts /\
    length ts = Z.to_nat (http.Attempts c).
Proof.
  intros Hn Hc Hl. unfold http.doChecks.
  destruct (Z.ltb_spec (http.Attempts c) 0); [lia|].
  destruct (doChecks_loop_spec c req l cl (Z.to_nat (http.Attempts c)) [] s Hc Hl)
    as (evs & ts & Hloop & Hevs & Hlen).
  simpl in Hloop. eauto.
Qed.

(** The records are those of the round trips, in the order of the log. *)
Lemma attempts_events_records c l cl req evs ts :
  attempts_events c l cl req evs ts ->
  ts = map (record_of c) (round_trips evs).
Proof.
  induction 1 as [|evs a rest ts Hone _ IH]; [done|].
  unfold round_trips. rewrite omap_app. fold (round_trips rest).
  rewrite map_app, <- IH.
  destruct Hone; simpl; by destruct (0 <? http.AttemptSpacing c).
Qed.

(** Every round trip goes through the client of the checker. *)
Lemma attempts_events_client c l cl req evs ts :
  attempts_events c l cl req evs ts ->
  forall l' cl' req' res rtt,
    In (EvDo l' cl' req' res rtt) evs -> l' = l /\ cl' = cl /\ req' = req.
Proof.
  induction 1 as [|evs a rest ts Hone _ IH]; intros l' cl' req' res rtt Hin.
  - destruct Hin.
  - apply in_app_or in Hin as [Hin|Hin]; [|eauto].
    destruct Hone; simpl in Hin.
    + destruct Hin as [Heq|[]]. by inversion Heq.
    + destruct Hin as [Heq|[Heq|Hin]]; [by inversion Heq | discriminate |].
      destruct (0 <? http.AttemptSpacing c); simpl in Hin;
        [destruct Hin as [Heq|[]]; discriminate | destruct Hin].
Qed.

(** After a response the body is closed and, the spacing being positive,
    slept: the two events follow the round trip at once. *)
Lemma attempts_events_sleep c l cl req evs ts :
  0 < http.AttemptSpacing c ->
  attempts_events c l cl req evs ts ->
  forall pre l' cl' req' resp rtt post,
    evs = (pre ++ EvDo l' cl' req' (net_http.DoResponse resp) rtt :: post)%list ->
    exists post',
      post = EvClose :: EvSleep (http.AttemptSpacing c) :: post'.
Proof.
  intros Hpos. induction 1 as [|evs a rest ts Hone _ IH];
    intros pre l' cl' req' resp' rtt' post Heq.
  - by destruct pre.
  - destruct Hone as [msg rtt|resp rtt]; simpl in Heq.
    + destruct pre as [|e pre]; simpl in Heq; [discriminate|].
      injection Heq as _ Heq. eauto.
    + destruct (Z.ltb_spec 0 (http.AttemptSpacing c)); [|lia].
      simpl in Heq.
      destruct pre as [|e0 [|e1 [|e2 pre]]]; simpl in Heq;
        try discriminate.
      * injection Heq as _ _ _ _ _ <-. eauto.
      * injection Heq as _ _ _ Heq. eauto.
Qed.

End Executor.

(** ** The request and its headers *)

Section Headers.

Context (E : Env).

Implicit Types (req : net_http.Request) (h : gmap string (list string)).

Lemma Header_Add_value h key value :
  In value (default [] (Header_Add E h key value !! CanonicalMIMEHeaderKey E key)).
Proof.
  unfold Header_Add. rewrite lookup_insert_eq. simpl.
  apply in_or_app. right. by left.
Qed.

Lemma Header_Add_keeps h key value k x :
  In x (default [] (h !! k)) ->
  In x (default [] (Header_Add E h key value !! k)).
Proof.
  intros Hin. unfold Header_Add.
  destruct (decide (CanonicalMIMEHeaderKey E key = k)) as [<-|Hne].
  - rewrite lookup_insert_eq. simpl. apply in_or_app. by left.
  - by rewrite lookup_insert_ne.
Qed.

Lemma add_headers_app hs hs' req :
  http.add_headers E (hs ++ hs') req =
  match http.add_headers E hs req with
  | Done req' => http.add_headers E hs' req'
  | Panic m => Panic m
  end.
Proof.
  revert req. induction hs as [|[key header] hs IH]; intros req; simpl; [done|].
  destruct (String.eqb (ToLower E key) "host"); [|apply IH].
  destruct header; [done | apply IH].
Qed.

(** Headers that were added stay in the mapping. *)
Lemma add_headers_keeps hs : forall req req' k x,
  http.add_headers E hs req = Done req' ->
  In x (default [] (net_http.Header req !! k)) ->
  In x (default [] (net_http.Header req' !! k)).
Proof.
  induction hs as [|[key header] hs IH]; intros req req' k x Hadd Hin; simpl in Hadd.
  - by injection Hadd as <-.
  - destruct (String.eqb (ToLower E key) "host").
    + destruct header as [|h0 header]; [discriminate|].
      eapply IH; [exact Hadd|]. simpl. by apply Header_Add_keeps.
    + eapply IH; [exact Hadd|]. simpl. by apply Header_Add_keeps.
Qed.

(** Without a [host] name the loop returns and leaves [req.Host] alone. *)
Lemma add_headers_host_free hs : forall req,
  host_free E hs = true ->
  exists req', http.add_headers E hs req = Done req' /\
               net_http.Host req' = net_http.Host req.
Proof.
  induction hs as [|[key header] hs IH]; intros req Hfree; simpl in *.
  - eauto.
  - apply andb_prop in Hfree as [Hkey Hfree].
    destruct (String.eqb (ToLower E key) "host"); [discriminate|].
    destruct (IH (net_http.set_Header req
                   (Header_Add E (net_http.Header req) key (Join header ", ")))
                 Hfree) as (req' & -> & Hhost).
    eauto.
Qed.

End Headers.

Section Request.

Context (E : Env).

(** C8, as the code has it.  A configured header whose name is [host] in
    lower case, and which is the only such header and has a value, sets
    the host of the request to its first value; it is also added to the
    header mapping of the request, under its canonical name and with its
    values joined, as every configured header is. *)
Theorem build_request_Host_header (c : http.Checker) u pre key v vs post :
  url_Parse E (http.URL c) = inl u ->
  http.Headers c = pre ++ (key, v :: vs) :: post ->
  ToLower E key = "host" ->
  host_free E pre = true ->
  host_free E post = true ->
  exists req,
    http.build_request E c = Done (inl req) /\
    net_http.Host req = v /\
    In (Join (v :: vs) ", ")
       (default [] (net_http.Header req !! CanonicalMIMEHeaderKey E key)).
Proof.
  intros Hu Hh Hkey Hpre Hpost.
  unfold http.build_request, NewRequest. rewrite Hu, Hh, add_headers_app.
  match goal with |- context [http.add_headers E pre ?r] => set (req0 := r) end.
  destruct (add_headers_host_free E pre req0 Hpre) as (req1 & -> & _).
  simpl. rewrite Hkey. simpl.
  match goal with |- context [http.add_headers E post ?r] => set (req2 := r) end.
  destruct (add_headers_host_free E post req2 Hpost) as (req3 & Hadd & Hhost).
  rewrite Hadd. exists req3. split; [done|]. split; [by rewrite Hhost|].
  eapply add_headers_keeps; [exact Hadd|]. subst req2. simpl.
  apply Header_Add_value.
Qed.

End Request.

(** ** [Check] *)

Section Check.

Context (E : Env).

Implicit Types (c : http.Checker) (s : State).

(** The client block keeps the log free of round trips and the package
    variable in place; it goes on with the client settled, returns one of
    the two errors of the CA file, or panics on the type assertion. *)
Lemma default_client_inv c s fl s1 :
  http.default_client E c s = (fl, s1) ->
  DefaultHTTPClient s1 = DefaultHTTPClient s /\
  (exists evs, log s1 = log s ++ evs /\ round_trips evs = []) /\
  match fl with
  | http.Continue c2 =>
      c2 = with_client c s /\
      (http.Client c = None ->
       exists cl, heap s1 !! DefaultHTTPClient s = Some cl)
  | http.Return e =>
      (e = errReadingRootCert \/ e = errParsingRootCert) /\ heap s1 = heap s
  | http.Crash _ => client_ready c s = false
  end.
Proof.
  unfold http.default_client, with_client, client_ready, default_ready.
  destruct (http.Client c) as [l|] eqn:Hc.
  - intros [= <- <-]. repeat split; [|done]. exists []. by rewrite app_nil_r.
  - unfold http.tls_config. simpl.
    destruct (negb (String.eqb (http.TLSCAFile c) "")).
    + destruct (ReadFile E (http.TLSCAFile c)) as [[pem|] []]; simpl;
        try (intros [= <- <-]; simpl; repeat split; eauto; fail).
      destruct (certificates_in E pem) eqn:Hcerts; simpl.
      * intros [= <- <-]; simpl; repeat split; eauto.
      * destruct (heap s !! DefaultHTTPClient s) as [cl|]; simpl;
          [destruct (net_http.Transport_ cl)|];
          intros [= <- <-]; simpl; repeat split; eauto.
        intros _. rewrite lookup_insert_eq. eauto.
    + destruct (heap s !! DefaultHTTPClient s) as [cl|]; simpl;
        [destruct (net_http.Transport_ cl)|];
        intros [= <- <-]; simpl; repeat split; eauto;
        try (exists []; by rewrite app_nil_r).
      intros _. rewrite lookup_insert_eq. eauto.
Qed.

(** [doChecks] touches neither the heap nor the package variable. *)
Lemma doChecks_body_frame c req i checks s :
  heap (snd (http.doChecks_body E c req i checks s)) = heap s /\
  DefaultHTTPClient (snd (http.doChecks_body E c req i checks s)) =
    DefaultHTTPClient s.
Proof.
  unfold http.doChecks_body.
  destruct (http.Client c); [|done].
  destruct (heap s !! l); [|done].
  destruct (RoundTrip E (log s) c0 req) as [res rtt].
  destruct (http.assign_at i _ checks); [|done].
  destruct res; [done|].
  by destruct (0 <? http.AttemptSpacing c).
Qed.

Lemma doChecks_loop_frame c req n : forall i checks s,
  heap (snd (http.doChecks_loop E c req n i checks s)) = heap s /\
  DefaultHTTPClient (snd (http.doChecks_loop E c req n i checks s)) =
    DefaultHTTPClient s.
Proof.
  induction n as [|n IH]; intros i checks s; simpl; [done|].
  pose proof (doChecks_body_frame c req i checks s) as [Hh Hd].
  destruct (http.doChecks_body E c req i checks s) as [[checks'|m] s1];
    simpl in *; [|done].
  destruct (IH (S i) checks' s1) as [-> ->]. done.
Qed.

Lemma doChecks_frame c req s :
  heap (snd (http.doChecks E c req s)) = heap s /\
  DefaultHTTPClient (snd (http.doChecks E c req s)) = DefaultHTTPClient s.
Proof.
  unfold http.doChecks. destruct (http.Attempts c <? 0); [done|].
  apply doChecks_loop_frame.
Qed.

(** Without a client to dereference, [doChecks] panics at the first
    attempt. *)
Lemma doChecks_no_client c req s :
  1 <= http.Attempts c ->
  match http.Client c with
  | Some l => heap s !! l = None
  | None => True
  end ->
  exists m, http.doChecks E c req s = (Panic m, s).
Proof.
  intros Hn Hc. unfold http.doChecks.
  destruct (Z.ltb_spec (http.Attempts c) 0); [lia|].
  destruct (Z.to_nat (http.Attempts c)) eqn:Hnat; [lia|].
  simpl. unfold http.doChecks_body.
  destruct (http.Client c); [rewrite Hc|]; eauto.
Qed.

Lemma settled_Attempts c s :
  http.Attempts (settled c s) = Z.max 1 (http.Attempts c).
Proof.
  unfold settled, with_client.
  destruct (Z.ltb_spec (http.Attempts c) 1); simpl;
    destruct (http.Client c); simpl;
    destruct (http.UpStatus c =? 0); simpl; lia.
Qed.

Lemma settled_record c s rt :
  record_of (settled c s) rt = record_of (with_defaults c) rt.
Proof.
  unfold settled, with_defaults, with_client, record_of, http.checkDown.
  destruct (http.Attempts c <? 1); simpl;
    destruct (http.Client c); simpl;
    destruct (http.UpStatus c =? 0); reflexivity.
Qed.

Lemma settled_fields c s :
  http.URL (settled c s) = http.URL c /\
  http.Headers (settled c s) = http.Headers c /\
  http.AttemptSpacing (settled c s) = http.AttemptSpacing c /\
  http.Client (settled c s) =
    match http.Client c with
    | Some l => Some l
    | None => Some (DefaultHTTPClient s)
    end.
Proof.
  unfold settled, with_client. destruct c as [? ? up ? ? ? n ? ? ? cl ?].
  simpl. destruct (n <? 1); simpl; destruct cl; simpl;
    destruct (up =? 0); simpl; repeat split; reflexivity.
Qed.

End Check.

Section Run.

Context (E : Env).

Implicit Types (c : http.Checker) (s : State).

(** [Check], block by block. *)
Lemma Check_unfold c s :
  http.Check E c s =
  match http.default_client E
          (if http.Attempts c <? 1 then http.set_Attempts c 1 else c) s with
  | (http.Continue _, s1) =>
      match http.build_request E (settled c s) with
      | Panic m => (Panic m, s1)
      | Done (inr e) => (Done (http.new_result c, Some e), s1)
      | Done (inl req) =>
          match http.doChecks E (settled c s) req s1 with
          | (Panic m, s2) => (Panic m, s2)
          | (Done times, s2) =>
              (Done (http.conclude E (settled c s) (http.attempted c times),
                     None), s2)
          end
      end
  | (http.Return e, s1) => (Done (http.new_result c, Some e), s1)
  | (http.Crash m, s1) => (Panic m, s1)
  end.
Proof.
  unfold http.Check.
  destruct (http.default_client E _ s) as [[c2|e|m] s1] eqn:Hdc; [|done..].
  apply default_client_inv in Hdc as (_ & _ & -> & _).
  reflexivity.
Qed.

Lemma round_trips_app evs evs' :
  round_trips (evs ++ evs') = round_trips evs ++ round_trips evs'.
Proof. apply omap_app. Qed.

Lemma emitted_app s s1 evs0 evs :
  log s1 = log s ++ evs0 ->
  emitted s (after s1 evs) = evs0 ++ evs.
Proof.
  intros Hlog. unfold emitted, after. simpl.
  by rewrite Hlog, <- app_assoc, drop_app_length.
Qed.

(** A verdict that [Check] returns is the conclusion of [conclude] on the
    new result with the attempts of the run. *)
Lemma Check_returns_conclusion c s r s' :
  http.Check E c s = (Done (r, None), s') ->
  exists ts, r = http.conclude E (settled c s) (http.attempted c ts).
Proof.
  rewrite Check_unfold.
  destruct (http.default_client E _ s) as [[c2|e|m] s1]; [|done..].
  destruct (http.build_request E (settled c s)) as [[req|e]|m]; [|done..].
  destruct (http.doChecks E (settled c s) req s1) as [[ts|m] s2]; [|done].
  intros [= <- <-]. eauto.
Qed.

(** Once the request is built, the dialer of the invocation finds its
    address: its error for a URL that does not parse cannot occur during
    the attempts. *)
Lemma dial_address_after_request c req timeout cfg :
  http.build_request E c = Done (inl req) ->
  exists addr,
    http.dial_address E (net_http.mkDialer (http.URL c) timeout cfg) = inl addr.
Proof.
  unfold http.build_request, NewRequest, http.dial_address. simpl.
  destruct (url_Parse E (http.URL c)) as [u|msg]; [eauto | discriminate].
Qed.

(** C4. The verdict that [Check] returns holds exactly N attempt records
    when the attempt count N is at least 1, and exactly one when the count
    is unset or less than 1; the records are those of the round trips of
    the run, in the order in which they were made, failed or not. *)
Theorem Check_attempt_records c s r s' :
  http.Check E c s = (Done (r, None), s') ->
  (1 <= http.Attempts c ->
   length (types.Times r) = Z.to_nat (http.Attempts c)) /\
  (http.Attempts c < 1 -> length (types.Times r) = 1%nat) /\
  types.Times r =
    map (record_of (with_defaults c)) (round_trips (emitted s s')).
Proof.
  rewrite Check_unfold.
  destruct (http.default_client E _ s) as [[c2|e|m] s1] eqn:Hdc; [|done..].
  destruct (http.build_request E (settled c s)) as [[req|e]|m]; [|done..].
  apply default_client_inv in Hdc as (_ & (evs0 & Hlog & Hrt0) & _).
  pose proof (settled_Attempts c s) as Hn.
  destruct (settled_fields c s) as (_ & _ & _ & Hcl).
  set (l := match http.Client c with
            | Some l => l
            | None => DefaultHTTPClient s
            end).
  assert (Hcl' : http.Client (settled c s) = Some l)
    by (rewrite Hcl; subst l; by destruct (http.Client c)).
  destruct (heap s1 !! l) as [cl|] eqn:Hl.
  - destruct (doChecks_spec E (settled c s) req l cl s1 ltac:(lia) Hcl' Hl)
      as (evs & ts & -> & Hevs & Hlen).
    intros [= <- <-]. rewrite conclude_Times. simpl.
    rewrite Hlen, Hn, (emitted_app s s1 evs0 evs Hlog), round_trips_app, Hrt0.
    simpl. repeat split; try (intros; lia).
    rewrite (attempts_events_records _ _ _ _ _ _ Hevs).
    apply map_ext. intros rt. apply settled_record.
  - destruct (doChecks_no_client E (settled c s) req s1 ltac:(lia)) as (m & ->);
      [by rewrite Hcl' | done].
Qed.

(** C7, as the code has it.  With a positive spacing, every attempt that
    obtained a response, the final one included, is followed at once by
    the closing of the body and a sleep of the spacing. *)
Theorem doChecks_sleeps_after_every_response c req s ts s' :
  0 < http.AttemptSpacing c ->
  http.doChecks E c req s = (Done ts, s') ->
  forall pre l cl req' resp rtt post,
    emitted s s' = pre ++ EvDo l cl req' (net_http.DoResponse resp) rtt :: post ->
    exists post', post = EvClose :: EvSleep (http.AttemptSpacing c) :: post'.
Proof.
  intros Hpos Hdo.
  destruct (Z.ltb_spec (http.Attempts c) 1) as [Hlt|Hge].
  - (* no attempt is made *)
    unfold http.doChecks in Hdo.
    destruct (Z.ltb_spec (http.Attempts c) 0); [done|].
    replace (Z.to_nat (http.Attempts c)) with 0%nat in Hdo by lia.
    simpl in Hdo. injection Hdo as _ <-.
    intros pre l cl req' resp rtt post Heq.
    unfold emitted in Heq. rewrite drop_all in Heq. by destruct pre.
  - destruct (http.Client c) as [l|] eqn:Hc.
    + destruct (heap s !! l) as [cl|] eqn:Hl.
      * destruct (doChecks_spec E c req l cl s ltac:(lia) Hc Hl)
          as (evs & ts' & Heq & Hevs & _).
        rewrite Heq in Hdo. injection Hdo as _ <-.
        rewrite emitted_after.
        exact (attempts_events_sleep c l cl req evs ts' Hpos Hevs).
      * destruct (doChecks_no_client E c req s Hge) as (m & Heq);
          [by rewrite Hc | by rewrite Heq in Hdo].
    + destruct (doChecks_no_client E c req s Hge) as (m & Heq);
        [by rewrite Hc | by rewrite Heq in Hdo].
Qed.

End Run.

Section Configuration.

Context (E : Env).

Implicit Types (c : http.Checker) (s : State).

Lemma emitted_log s s1 evs : log s1 = log s ++ evs -> emitted s s1 = evs.
Proof. intros Hlog. unfold emitted. by rewrite Hlog, drop_app_length. Qed.

Lemma round_trips_nil_no_Do evs l cl req res rtt :
  round_trips evs = [] -> ~ In (EvDo l cl req res rtt) evs.
Proof.
  induction evs as [|e evs IH]; intros Hrt Hin; [done|].
  destruct Hin as [->|Hin]; [discriminate|].
  destruct e; simpl in Hrt; try discriminate; by apply IH.
Qed.


(** The TLS configuration, case by case. *)
Lemma tls_config_no_file c s :
  http.TLSCAFile c = "" ->
  http.tls_config E c s =
  (http.Continue (tls.mkConfig (http.TLSSkipVerify c) None), s).
Proof.
  intros Hca. unfold http.tls_config. rewrite Hca. simpl.
  by destruct (http.TLSSkipVerify c).
Qed.

Lemma tls_config_unreadable c s :
  http.TLSCAFile c <> "" ->
  snd (ReadFile E (http.TLSCAFile c)) = true \/
  fst (ReadFile E (http.TLSCAFile c)) = None ->
  http.tls_config E c s =
  (http.Return errReadingRootCert, emit (EvReadFile (http.TLSCAFile c)) s).
Proof.
  intros Hca Hrd. unfold http.tls_config.
  destruct (String.eqb_spec (http.TLSCAFile c) ""); [done|]. simpl.
  destruct (ReadFile E (http.TLSCAFile c)) as [[pem|] []]; simpl in Hrd;
    try done.
  destruct Hrd; discriminate.
Qed.

Lemma tls_config_no_certificate c s pem :
  http.TLSCAFile c <> "" ->
  ReadFile E (http.TLSCAFile c) = (Some pem, false) ->
  certificates_in E pem = [] ->
  http.tls_config E c s =
  (http.Return errParsingRootCert, emit (EvReadFile (http.TLSCAFile c)) s).
Proof.
  intros Hca Hrd Hcerts. unfold http.tls_config, AppendCertsFromPEM.
  destruct (String.eqb_spec (http.TLSCAFile c) ""); [done|]. simpl.
  by rewrite Hrd, Hcerts.
Qed.

Lemma tls_config_pool c s pem :
  http.TLSCAFile c <> "" ->
  ReadFile E (http.TLSCAFile c) = (Some pem, false) ->
  certificates_in E pem <> [] ->
  http.tls_config E c s =
  (http.Continue
     (tls.mkConfig (http.TLSSkipVerify c)
        (Some (default tls.NewCertPool (SystemCertPool E)
               ++ certificates_in E pem))),
   emit (EvReadFile (http.TLSCAFile c)) s).
Proof.
  intros Hca Hrd Hcerts. unfold http.tls_config, AppendCertsFromPEM.
  destruct (String.eqb_spec (http.TLSCAFile c) ""); [done|]. simpl.
  rewrite Hrd. destruct (certificates_in E pem) eqn:Hc; [done|]. simpl.
  destruct (http.TLSSkipVerify c); by destruct (SystemCertPool E).
Qed.

(** Reading the CA file is all that the TLS configuration does. *)
Lemma tls_config_inv c s fl s1 :
  http.tls_config E c s = (fl, s1) ->
  heap s1 = heap s /\ DefaultHTTPClient s1 = DefaultHTTPClient s /\
  exists evs, log s1 = log s ++ evs /\ round_trips evs = [].
Proof.
  unfold http.tls_config.
  destruct (negb (String.eqb (http.TLSCAFile c) "")).
  - destruct (ReadFile E (http.TLSCAFile c)) as [[pem|] []];
      try (intros [= <- <-]; simpl; eauto; fail).
    destruct (AppendCertsFromPEM E _ pem) as [pool []]; simpl;
      intros [= <- <-]; simpl; eauto.
  - intros [= <- <-]. repeat split. exists []. by rewrite app_nil_r.
Qed.

(** The client block of a checker without a client, after the TLS
    configuration. *)
Lemma default_client_None c s :
  http.Client c = None ->
  http.default_client E
    (if http.Attempts c <? 1 then http.set_Attempts c 1 else c) s =
  match http.tls_config E c s with
  | (http.Return e, s1) => (http.Return e, s1)
  | (http.Crash m, s1) => (http.Crash m, s1)
  | (http.Continue cfg, s1) =>
      match heap s1 !! DefaultHTTPClient s with
      | None => (http.Crash "nil pointer dereference", s1)
      | Some cl =>
          match net_http.Transport_ cl with
          | net_http.RT_Transport t =>
              (http.Continue (with_client
                 (if http.Attempts c <? 1 then http.set_Attempts c 1 else c) s),
               store (DefaultHTTPClient s)
                 (net_http.set_Transport cl
                    (net_http.RT_Transport
                       (net_http.set_DialTLS (net_http.Clone t)
                          (net_http.mkDialer (http.URL c) (5 * Second) cfg))))
                 s1)
          | _ => (http.Crash "interface conversion", s1)
          end
      end
  end.
Proof.
  intros Hc. destruct c as [? ? ? ? ? ? n ? ? ? cl ?]. simpl in Hc. subst cl.
  unfold http.default_client, with_client. cbn [http.Attempts].
  destruct (n <? 1); reflexivity.
Qed.

(** The heap and the package variable after [Check] are those after the
    client block. *)
Lemma Check_frame c s fl s1 :
  http.default_client E
    (if http.Attempts c <? 1 then http.set_Attempts c 1 else c) s = (fl, s1) ->
  heap (snd (http.Check E c s)) = heap s1 /\
  DefaultHTTPClient (snd (http.Check E c s)) = DefaultHTTPClient s1.
Proof.
  intros Hdc. rewrite Check_unfold, Hdc. destruct fl as [c2|e|m]; [|done..].
  destruct (http.build_request E (settled c s)) as [[req|e]|m]; [|done..].
  pose proof (doChecks_frame E (settled c s) req s1) as Hfr.
  by destruct (http.doChecks E (settled c s) req s1) as [[ts|m] s2].
Qed.


End Configuration.

Section DefaultClient.

Context (E : Env).

Implicit Types (c : http.Checker) (s : State).

Lemma default_ready_inv s :
  default_ready s = true ->
  exists cl t, heap s !! DefaultHTTPClient s = Some cl /\
               net_http.Transport_ cl = net_http.RT_Transport t.
Proof.
  unfold default_ready. destruct (heap s !! DefaultHTTPClient s) as [cl|]; [|done].
  destruct (net_http.Transport_ cl) eqn:Ht; try done. eauto.
Qed.

(** The client block when the TLS configuration is there: the transport
    of the default client is replaced. *)
Lemma default_client_installs c s cl t cfg s1 :
  http.Client c = None ->
  heap s !! DefaultHTTPClient s = Some cl ->
  net_http.Transport_ cl = net_http.RT_Transport t ->
  http.tls_config E c s = (http.Continue cfg, s1) ->
  http.default_client E
    (if http.Attempts c <? 1 then http.set_Attempts c 1 else c) s =
  (http.Continue (with_client
     (if http.Attempts c <? 1 then http.set_Attempts c 1 else c) s),
   store (DefaultHTTPClient s)
     (net_http.set_Transport cl
        (net_http.RT_Transport
           (net_http.set_DialTLS (net_http.Clone t)
              (net_http.mkDialer (http.URL c) (5 * Second) cfg))))
     s1).
Proof.
  intros Hc Hcl Ht Htls. rewrite (default_client_None E c s Hc), Htls.
  apply tls_config_inv in Htls as (-> & _). by rewrite Hcl, Ht.
Qed.

(** C6, as the code has it.  With a CA file and no client of the caller:
    when the file cannot be read, or the slice read is nil, [Check]
    returns the reading error and makes no attempt; when the data hold
    no certificate, as the data of an empty file do, it returns the
    parsing error, which is another error, and makes no attempt; when
    certificates are found, they are added to the system pool, or to an
    empty pool when there is none, and the dialer that [Check] installs
    has this pool. *)
Theorem Check_CA_file c s :
  http.Client c = None ->
  http.TLSCAFile c <> "" ->
  let path := http.TLSCAFile c in
  let seed := default tls.NewCertPool (SystemCertPool E) in
  (snd (ReadFile E path) = true \/ fst (ReadFile E path) = None ->
   http.Check E c s =
   (Done (http.new_result c, Some errReadingRootCert), emit (EvReadFile path) s)) /\
  (forall pem,
     ReadFile E path = (Some pem, false) -> certificates_in E pem = [] ->
     http.Check E c s =
     (Done (http.new_result c, Some errParsingRootCert),
      emit (EvReadFile path) s)) /\
  (ReadFile E path = (Some [], false) ->
   http.Check E c s =
   (Done (http.new_result c, Some errParsingRootCert),
    emit (EvReadFile path) s)) /\
  errParsingRootCert <> errReadingRootCert /\
  types.Times (http.new_result c) = [] /\
  round_trips (emitted s (emit (EvReadFile path) s)) = [] /\
  (forall pem,
     ReadFile E path = (Some pem, false) -> certificates_in E pem <> [] ->
     default_ready s = true ->
     exists cl t,
       heap (snd (http.Check E c s)) !! DefaultHTTPClient s = Some cl /\
       net_http.Transport_ cl = net_http.RT_Transport t /\
       net_http.DialTLS t =
         Some (net_http.mkDialer (http.URL c) (5 * Second)
                 (tls.mkConfig (http.TLSSkipVerify c)
                    (Some (seed ++ certificates_in E pem))))).
Proof.
  intros Hc Hca path seed.
  assert (Hnone : forall pem,
            ReadFile E path = (Some pem, false) -> certificates_in E pem = [] ->
            http.Check E c s =
            (Done (http.new_result c, Some errParsingRootCert),
             emit (EvReadFile path) s)).
  { intros pem Hrd Hcerts. rewrite Check_unfold, (default_client_None E c s Hc).
    by rewrite (tls_config_no_certificate E c s pem Hca Hrd Hcerts). }
  split; [|split; [exact Hnone|split; [|split; [|split; [|split]]]]].
  - intros Hrd. rewrite Check_unfold, (default_client_None E c s Hc).
    by rewrite (tls_config_unreadable E c s Hca Hrd).
  - intros Hrd. by apply (Hnone []).
  - discriminate.
  - reflexivity.
  - rewrite emit_after, emitted_after. reflexivity.
  - intros pem Hrd Hcerts Hready.
    destruct (default_ready_inv s Hready) as (cl & t & Hcl & Ht).
    pose proof (default_client_installs c s cl t _ _ Hc Hcl Ht
                  (tls_config_pool E c s pem Hca Hrd Hcerts)) as Hdc.
    destruct (Check_frame E c s _ _ Hdc) as [Hheap _].
    rewrite Hheap. simpl. rewrite lookup_insert_eq. eauto.
Qed.

(** C10, as the code has it.  When the checker has no client and the TLS
    configuration is there (no CA file, or one with a certificate), the
    default client becomes the client of the checker: its transport is
    replaced by a clone that carries the dialer of this invocation, the
    package variable keeps pointing to it, and every round trip of the
    run goes through it. *)
Theorem Check_replaces_default_transport c s cl t cfg s1 :
  http.Client c = None ->
  heap s !! DefaultHTTPClient s = Some cl ->
  net_http.Transport_ cl = net_http.RT_Transport t ->
  http.tls_config E c s = (http.Continue cfg, s1) ->
  let s' := snd (http.Check E c s) in
  let cl' :=
    net_http.set_Transport cl
      (net_http.RT_Transport
         (net_http.set_DialTLS (net_http.Clone t)
            (net_http.mkDialer (http.URL c) (5 * Second) cfg))) in
  DefaultHTTPClient s' = DefaultHTTPClient s /\
  heap s' = <[DefaultHTTPClient s := cl']> (heap s) /\
  (forall l' cl'' req res rtt,
     In (EvDo l' cl'' req res rtt) (emitted s s') ->
     l' = DefaultHTTPClient s /\ cl'' = cl').
Proof.
  intros Hc Hcl Ht Htls s' cl'.
  pose proof (default_client_installs c s cl t cfg s1 Hc Hcl Ht Htls) as Hdc.
  destruct (tls_config_inv E c s _ _ Htls) as (Hheap & Hdef & evs0 & Hlog & Hrt).
  destruct (Check_frame E c s _ _ Hdc) as [Hh Hd]. fold s' in Hh, Hd.
  simpl in Hh, Hd. rewrite Hheap in Hh. split; [congruence|]. split; [done|].
  intros l' cl'' req res rtt. subst s'.
  rewrite Check_unfold, Hdc.
  set (s2 := store _ _ s1).
  assert (Hlog2 : log s2 = log s ++ evs0) by done.
  assert (Hno : In (EvDo l' cl'' req res rtt) (emitted s s2) -> False).
  { rewrite (emitted_log _ _ _ Hlog2). by apply round_trips_nil_no_Do. }
  destruct (http.build_request E (settled c s)) as [[rq|e]|m]; simpl;
    [|intros Hin; by destruct (Hno Hin)..].
  destruct (settled_fields c s) as (_ & _ & _ & Hscl). rewrite Hc in Hscl.
  assert (Hl2 : heap s2 !! DefaultHTTPClient s = Some cl')
    by (subst s2; simpl; by rewrite lookup_insert_eq).
  destruct (doChecks_spec E (settled c s) rq _ _ s2
              ltac:(rewrite settled_Attempts; lia) Hscl Hl2)
    as (evs & ts & -> & Hevs & _).
  simpl. rewrite (emitted_app s s2 evs0 evs Hlog2). intros Hin.
  apply in_app_or in Hin as [Hin|Hin].
  - by destruct (round_trips_nil_no_Do _ _ _ _ _ _ Hrt Hin).
  - destruct (attempts_events_client _ _ _ _ _ _ Hevs _ _ _ _ _ Hin)
      as (-> & -> & _). done.
Qed.

End DefaultClient.

(** ** The checker on concrete inputs *)

(** Three slow attempts against a threshold of 200ms: the verdict is
    degraded and its notice names the threshold. *)
Lemma conclude_degraded_iff_median_exceeds_witness :
  let c := sample.with_Threshold (200 * Millisecond)
             (sample.checker "https://up.example") in
  let v := http.conclude sample.env c (http.attempted c sample.slow) in
  (forall a, In a sample.slow -> types.Error a = "") /\
  types.Degraded v = true /\
  types.Notice v = "median round trip time exceeded threshold (200ms)".
Proof.
  intros c v.
  assert (Hok : forall a, In a sample.slow -> types.Error a = "").
  { intros a [<-|[<-|[<-|[]]]]; reflexivity. }
  split; [exact Hok|].
  destruct (conclude_degraded_iff_median_exceeds sample.env c c sample.slow Hok)
    as (Hiff & _ & _ & Hnotice).
  assert (Hd : types.Degraded v = true).
  { apply Hiff. vm_compute. split; reflexivity. }
  split; [exact Hd|]. exact (Hnotice Hd).
Defined.

(** C2 as stated fails for a negative threshold: it is not zero and the
    median exceeds it, yet the verdict is healthy, not degraded. *)
Lemma negative_threshold_is_healthy :
  let c := sample.with_Threshold (-1) (sample.checker "https://up.example") in
  let ts := [{| types.RTT := 5; types.Error := "" |}] in
  let r := http.attempted c ts in
  let v := http.conclude sample.env c r in
  let median :=
    types.Median
      (ComputeStats sample.env (types.set_ThresholdRTT r (http.ThresholdRTT c))) in
  types.Healthy v = true /\
  ~ ((forall a, In a ts -> types.Error a = "") ->
     (types.Degraded v = true <->
      http.ThresholdRTT c <> 0 /\ http.ThresholdRTT c < median)).
Proof.
  intros c ts r v median. split; [reflexivity|]. intros Hclaim.
  assert (Hok : forall a, In a ts -> types.Error a = "").
  { intros a [<-|[]]. reflexivity. }
  destruct (Hclaim Hok) as [_ Hback].
  assert (Hd : types.Degraded v = true).
  { apply Hback. split; [discriminate | reflexivity]. }
  vm_compute in Hd. discriminate.
Qed.

(** C9 as stated fails for a down verdict: its notice is empty. *)
Lemma down_verdict_has_empty_notice :
  let c := sample.checker "https://down.example" in
  let v := http.conclude sample.env c (http.attempted c sample.refused) in
  types.Down v = true /\ types.Notice v = "" /\
  ~ (types.Down v = true \/ types.Degraded v = true -> types.Notice v <> "").
Proof.
  intros c v. split; [reflexivity|]. split; [reflexivity|].
  intros Hclaim. apply Hclaim; [left|]; reflexivity.
Qed.

(** The message of the exporter for that verdict. *)
Example Send_message_down :
  let c := sample.checker "https://down.example" in
  appinsights.Send_message
    (http.conclude sample.env c (http.attempted c sample.refused))
  = " - Number of attempts = 1 (1ms)".
Proof. vm_compute. reflexivity. Qed.

(** Three attempts are asked for and three records are returned. *)
Lemma Check_attempt_records_witness :
  let c := sample.with_Attempts 3 (sample.checker "https://flaky.example") in
  exists r s',
    http.Check sample.env c http.init_state = (Done (r, None), s') /\
    length (types.Times r) = 3%nat /\
    map types.Error (types.Times r) = ["connection refused"; ""; ""].
Proof.
  intros c.
  destruct (http.Check sample.env c http.init_state) as [[[r [e|]]|m] s'] eqn:Hrun;
    try (vm_compute in Hrun; discriminate).
  exists r, s'. split; [reflexivity|].
  destruct (Check_attempt_records sample.env c http.init_state r s' Hrun)
    as (Hn & _ & Hrecords).
  split; [rewrite Hn; [reflexivity | vm_compute; discriminate]|].
  vm_compute in Hrun. injection Hrun as <- <-. reflexivity.
Defined.


(** An empty CA file: it is read, holds no certificate, and [Check]
    returns the parsing error without an attempt. *)
Lemma Check_CA_file_witness :
  let c := sample.with_CAFile "/etc/empty.pem" (sample.checker "https://up.example") in
  http.Client c = None /\ http.TLSCAFile c <> "" /\
  ReadFile sample.env "/etc/empty.pem" = (Some [], false) /\
  http.Check sample.env c http.init_state =
  (Done (http.new_result c, Some errParsingRootCert),
   emit (EvReadFile "/etc/empty.pem") http.init_state).
Proof.
  intros c. split; [reflexivity|].
  assert (Hca : http.TLSCAFile c <> "") by discriminate.
  split; [exact Hca|]. split; [reflexivity|].
  destruct (Check_CA_file sample.env c http.init_state eq_refl Hca)
    as (_ & _ & Hempty & _).
  apply Hempty. reflexivity.
Defined.

(** C6 as stated fails for an empty file: it is not treated as a file
    that cannot be read.  The read succeeds with a slice that is not
    nil, and the error is the one of data without certificate, while the
    missing file gives the reading error: no single error stands for
    "unreadable or empty". *)
Lemma empty_CA_file_is_a_parsing_error :
  let missing := sample.with_CAFile "/missing.pem"
                   (sample.checker "https://up.example") in
  let empty := sample.with_CAFile "/etc/empty.pem"
                 (sample.checker "https://up.example") in
  ReadFile sample.env "/missing.pem" = (None, true) /\
  ReadFile sample.env "/etc/empty.pem" = (Some [], false) /\
  fst (http.Check sample.env missing http.init_state)
    = Done (http.new_result missing, Some errReadingRootCert) /\
  fst (http.Check sample.env empty http.init_state)
    = Done (http.new_result empty, Some errParsingRootCert) /\
  ~ (exists e,
       fst (http.Check sample.env missing http.init_state)
         = Done (http.new_result missing, Some e) /\
       fst (http.Check sample.env empty http.init_state)
         = Done (http.new_result empty, Some e)).
Proof.
  intros missing empty.
  split; [reflexivity|]. split; [reflexivity|].
  split; [vm_compute; reflexivity|]. split; [vm_compute; reflexivity|].
  intros (e & Hm & He). vm_compute in Hm, He.
  injection Hm as <-. discriminate.
Qed.

(** C10 as stated fails when the CA file cannot be read: the checker has
    no client of its own, and after [Check] the default client still has
    the transport of the declaration, without a dialer. *)
Lemma unreadable_CA_leaves_default_client :
  let c := sample.with_CAFile "/missing.pem" (sample.checker "https://up.example") in
  let s' := snd (http.Check sample.env c http.init_state) in
  http.Client c = None /\
  heap s' = heap http.init_state /\
  heap s' !! DefaultHTTPClient s' = Some http.DefaultClient /\
  net_http.DialTLS http.DefaultTransport = None.
Proof. intros c s'. vm_compute. repeat split; reflexivity. Qed.

(** A run without CA file from the initial state: the transport of the
    default client is replaced. *)
Lemma Check_replaces_default_transport_witness :
  let c := sample.checker "https://up.example" in
  let s' := snd (http.Check sample.env c http.init_state) in
  let cfg := tls.mkConfig false None in
  http.Client c = None /\
  http.tls_config sample.env c http.init_state = (http.Continue cfg, http.init_state) /\
  heap s' =
    <[0%nat := net_http.set_Transport http.DefaultClient
                 (net_http.RT_Transport
                    (net_http.set_DialTLS http.DefaultTransport
                       (net_http.mkDialer "https://up.example" (5 * Second) cfg)))]>
      (heap http.init_state).
Proof.
  intros c s' cfg. split; [reflexivity|]. split; [reflexivity|].
  destruct (Check_replaces_default_transport sample.env c http.init_state
              http.DefaultClient http.DefaultTransport cfg http.init_state
              eq_refl eq_refl eq_refl eq_refl) as (_ & Hheap & _).
  exact Hheap.
Defined.

(** C7 as stated fails: with one attempt and a spacing of one second,
    the run ends with a sleep of one second after the final attempt. *)
Lemma sleep_follows_final_attempt :
  let c := sample.with_Spacing Second
             (sample.with_Attempts 1 (sample.checker "https://up.example")) in
  let s' := snd (http.Check sample.env c http.init_state) in
  http.Attempts c = 1 /\
  map kind_of (emitted http.init_state s') = [KDo; KClose; KSleep Second] /\
  last (emitted http.init_state s') = Some (EvSleep (http.AttemptSpacing c)).
Proof. intros c s'. vm_compute. repeat split; reflexivity. Qed.

(** Two attempts with a spacing of one second: each is followed by the
    closing of the body and the sleep, the second one too. *)
Lemma doChecks_sleeps_after_every_response_witness :
  let c := sample.with_Client 0%nat
             (sample.with_Spacing Second
                (sample.with_Attempts 2 (sample.checker "https://up.example"))) in
  let s' := snd (http.doChecks sample.env c sample.request http.init_state) in
  0 < http.AttemptSpacing c /\
  map kind_of (emitted http.init_state s')
    = [KDo; KClose; KSleep Second; KDo; KClose; KSleep Second] /\
  exists post',
    drop 4 (emitted http.init_state s')
      = EvClose :: EvSleep (http.AttemptSpacing c) :: post'.
Proof.
  intros c s'. split; [reflexivity|]. split; [vm_compute; reflexivity|].
  destruct (http.doChecks sample.env c sample.request http.init_state)
    as [[ts|m] s2] eqn:Hrun; [|vm_compute in Hrun; discriminate].
  assert (Hpos : 0 < http.AttemptSpacing c) by reflexivity.
  pose proof (doChecks_sleeps_after_every_response sample.env c sample.request
                http.init_state ts s2 Hpos Hrun) as Hsleep.
  subst s'. simpl. vm_compute in Hrun. injection Hrun as _ <-.
  match goal with |- context [emitted ?s0 ?s1] => set (evs := emitted s0 s1) in * end.
  assert (Hsplit : exists l cl req' resp rtt,
            evs = take 3 evs
                    ++ EvDo l cl req' (net_http.DoResponse resp) rtt :: drop 4 evs).
  { vm_compute. do 5 eexists. reflexivity. }
  destruct Hsplit as (l & cl & req' & resp & rtt & Hsplit).
  exact (Hsleep _ _ _ _ _ _ _ Hsplit).
Defined.

(** A header named [hOsT]: it sets the host of the request, and it is in
    the header mapping under [Host]. *)
Lemma build_request_Host_header_witness :
  let c := sample.with_Headers
             [("Accept", ["*/*"]); ("hOsT", ["virtual.example"; "b"])]
             (sample.checker "https://up.example") in
  url_Parse sample.env (http.URL c)
    = inl (url.mkURL "https" "up.example" "" "") /\
  ToLower sample.env "hOsT" = "host" /\
  exists req,
    http.build_request sample.env c = Done (inl req) /\
    net_http.Host req = "virtual.example" /\
    In "virtual.example, b" (default [] (net_http.Header req !! "Host")).
Proof.
  intros c. split; [reflexivity|]. split; [reflexivity|].
  exact (build_request_Host_header sample.env c _
           [("Accept", ["*/*"])] "hOsT" "virtual.example" ["b"] []
           eq_refl eq_refl eq_refl eq_refl eq_refl).
Defined.

(** C8 as stated fails: the header [Host] overrides the host of the
    request and is in the header mapping of the request all the same. *)
Lemma Host_header_is_in_header_mapping :
  let c := sample.with_Headers [("Host", ["virtual.example"])]
             (sample.checker "https://up.example") in
  exists req,
    http.build_request sample.env c = Done (inl req) /\
    net_http.Host req = "virtual.example" /\
    net_http.Header req !! "Host" = Some ["virtual.example"] /\
    ~ (net_http.Header req !! "Host" = None).
Proof.
  intros c. eexists. split; [vm_compute; reflexivity|].
  split; [reflexivity|]. split; [vm_compute; reflexivity|].
  vm_compute. discriminate.
Qed.

(** * Further properties of the checker *)

(** ** [strings.Contains] and [checkDown] *)

Lemma HasPrefix_iff (s p : string) :
  HasPrefix s p = true <-> exists post, s = p +:+ post.
Proof.
  revert s. induction p as [|b p IH]; intros s.
  - destruct s; simpl; (split; [eauto | done]).
  - destruct s as [|a s]; simpl.
    + split; [done | intros (post & Heq); discriminate].
    + rewrite andb_true_iff, IH. split.
      * intros [Hab (post & ->)]. apply Ascii.eqb_eq in Hab as ->. eauto.
      * intros (post & [= -> ->]). split; [apply Ascii.eqb_refl | eauto].
Qed.

Lemma Contains_iff (s sub : string) :
  Contains s sub = true <-> substring sub s.
Proof.
  unfold substring. induction s as [|a s IH].
  - change (Contains "" sub) with (HasPrefix "" sub || false).
    rewrite orb_false_r, HasPrefix_iff. split.
    + intros (post & Heq). exists "", post. exact Heq.
    + intros ([|b pre] & post & Heq); [eauto | discriminate].
  - change (Contains (String a s) sub)
      with (HasPrefix (String a s) sub || Contains s sub).
    rewrite orb_true_iff, HasPrefix_iff, IH. split.
    + intros [(post & Heq)|(pre & post & ->)].
      * exists "", post. exact Heq.
      * exists (String a pre), post. reflexivity.
    + intros ([|b pre] & post & Heq); simpl in Heq.
      * left. eauto.
      * injection Heq as -> ->. right. eauto.
Qed.

Lemma Contains_false_iff (s sub : string) :
  Contains s sub = false <-> ~ substring sub s.
Proof.
  rewrite <- Contains_iff. destruct (Contains s sub); split; done.
Qed.

Lemma eqb_empty_true (s : string) : String.eqb s "" = true <-> s = "".
Proof. apply String.eqb_eq. Qed.

(** X1. [checkDown] accepts a response exactly when its status is the
    expected one and, if a content rule is set, the body can be read,
    contains the required text (when one is set) and does not contain
    the forbidden text (when one is set). *)
Theorem checkDown_accepts_iff (c : http.Checker) (resp : net_http.Response) :
  http.checkDown c resp = None <->
  net_http.StatusCode resp = http.UpStatus c /\
  ((http.MustContain c = "" /\ http.MustNotContain c = "") \/
   exists body,
     net_http.Body_ resp = net_http.BodyBytes body /\
     (http.MustContain c = "" \/ substring (http.MustContain c) body) /\
     (http.MustNotContain c = "" \/ ~ substring (http.MustNotContain c) body)).
Proof.
  unfold http.checkDown.
  destruct (Z.eqb_spec (net_http.StatusCode resp) (http.UpStatus c)) as [Hst|Hst];
    simpl; [|split; [done | tauto]].
  destruct (String.eqb_spec (http.MustContain c) "") as [Hmc|Hmc];
    destruct (String.eqb_spec (http.MustNotContain c) "") as [Hmn|Hmn]; simpl;
    try (split; [tauto | done]).
  - (* only the forbidden text *)
    destruct (net_http.Body_ resp) as [body|msg].
    + destruct (Contains body (http.MustNotContain c)) eqn:Hct.
      * apply Contains_iff in Hct. split; [done|].
        intros (_ & [[_ ?]|(b & [= <-] & _ & [?|Hno])]); done.
      * apply Contains_false_iff in Hct. split; [|done].
        intros _. split; [done|]. right. exists body. auto.
    + split; [done|]. intros (_ & [[_ ?]|(b & ? & _)]); done.
  - (* only the required text *)
    destruct (net_http.Body_ resp) as [body|msg].
    + destruct (Contains body (http.MustContain c)) eqn:Hct; simpl.
      * apply Contains_iff in Hct. split; [|done].
        intros _. split; [done|]. right. exists body. auto.
      * apply Contains_false_iff in Hct. split; [done|].
        intros (_ & [[? _]|(b & [= <-] & [?|?] & _)]); done.
    + split; [done|]. intros (_ & [[? _]|(b & ? & _)]); done.
  - (* both *)
    destruct (net_http.Body_ resp) as [body|msg].
    + destruct (Contains body (http.MustContain c)) eqn:Hct; simpl.
      * apply Contains_iff in Hct.
        destruct (Contains body (http.MustNotContain c)) eqn:Hcn.
        -- apply Contains_iff in Hcn. split; [done|].
           intros (_ & [[? _]|(b & [= <-] & _ & [?|?])]); done.
        -- apply Contains_false_iff in Hcn. split; [|done].
           intros _. split; [done|]. right. exists body. auto.
      * apply Contains_false_iff in Hct. split; [done|].
        intros (_ & [[? _]|(b & [= <-] & [?|?] & _)]); done.
    + split; [done|]. intros (_ & [[? _]|(b & ? & _)]); done.
Qed.

(** The description of an error of [checkDown] is never empty. *)
Lemma checkDown_message_nonempty (c : http.Checker) resp msg :
  http.checkDown c resp = Some msg -> msg <> "".
Proof.
  unfold http.checkDown.
  repeat match goal with
         | |- context [if ?b then _ else _] => destruct b
         | |- context [match ?b with net_http.BodyBytes _ => _ | _ => _ end] =>
             destruct b
         end; intros [= <-]; discriminate.
Qed.

Lemma rejected_iff_record (c : http.Checker) (rt : net_http.DoResult * Z) :
  rejected c (fst rt) = true <-> types.Error (record_of c rt) <> "".
Proof.
  destruct rt as [[msg|resp] rtt]; simpl.
  - rewrite negb_true_iff. destruct (String.eqb_spec msg ""); split; done.
  - destruct (http.checkDown c resp) as [msg|] eqn:Hcd; simpl.
    + apply checkDown_message_nonempty in Hcd. split; done.
    + split; done.
Qed.

(** ** What [Check] returns *)

Section Returned.

Context (E : Env).

Implicit Types (c : http.Checker) (s : State).

(** A verdict of [Check]: the conclusion on the records of the round
    trips of the run. *)
Lemma Check_verdict_inv c s r s' :
  http.Check E c s = (Done (r, None), s') ->
  exists ts,
    r = http.conclude E (settled c s) (http.attempted c ts) /\
    ts = map (record_of (with_defaults c)) (round_trips (emitted s s')) /\
    length ts = Z.to_nat (Z.max 1 (http.Attempts c)).
Proof.
  rewrite Check_unfold.
  destruct (http.default_client E _ s) as [[c2|e|m] s1] eqn:Hdc; [|done..].
  destruct (http.build_request E (settled c s)) as [[req|e]|m]; [|done..].
  apply default_client_inv in Hdc as (_ & (evs0 & Hlog & Hrt0) & _).
  destruct (settled_fields c s) as (_ & _ & _ & Hcl).
  set (l := match http.Client c with
            | Some l => l
            | None => DefaultHTTPClient s
            end).
  assert (Hcl' : http.Client (settled c s) = Some l)
    by (rewrite Hcl; subst l; by destruct (http.Client c)).
  pose proof (settled_Attempts c s) as Hn.
  destruct (heap s1 !! l) as [cl|] eqn:Hl.
  - destruct (doChecks_spec E (settled c s) req l cl s1 ltac:(lia) Hcl' Hl)
      as (evs & ts & -> & Hevs & Hlen).
    intros [= <- <-]. exists ts. split; [done|].
    rewrite (emitted_app s s1 evs0 evs Hlog), round_trips_app, Hrt0. simpl.
    split; [|by rewrite Hlen, Hn].
    rewrite (attempts_events_records _ _ _ _ _ _ Hevs).
    apply map_ext. intros rt. apply settled_record.
  - destruct (doChecks_no_client E (settled c s) req s1 ltac:(lia)) as (m & ->);
      [by rewrite Hcl' | done].
Qed.

Lemma conclude_Down_attempted c c0 ts :
  types.Down (http.conclude E c (http.attempted c0 ts)) = http.any_error ts.
Proof.
  unfold http.conclude. simpl. destruct (http.any_error ts); [done|].
  repeat match goal with |- context [if ?b then _ else _] => destruct b end;
    reflexivity.
Qed.

Lemma conclude_identity c r :
  types.Title (http.conclude E c r) = types.Title r /\
  types.Endpoint (http.conclude E c r) = types.Endpoint r /\
  types.ThresholdRTT (http.conclude E c r) = http.ThresholdRTT c.
Proof.
  unfold http.conclude. simpl.
  repeat match goal with |- context [if ?b then _ else _] => destruct b end;
    done.
Qed.

Lemma settled_ThresholdRTT c s :
  http.ThresholdRTT (settled c s) = http.ThresholdRTT c.
Proof.
  unfold settled, with_client. destruct c as [? ? up ? ? ? n ? ? ? cl ?].
  simpl. destruct (n <? 1); simpl; destruct cl; simpl;
    destruct (up =? 0); reflexivity.
Qed.

(** X2. The verdict that [Check] returns is down exactly when a round
    trip of the run was rejected: its transport error has a description,
    or [checkDown], with the default status 200 when none is set, refuses
    its response. *)
Theorem Check_down_iff_round_trip_rejected c s r s' :
  http.Check E c s = (Done (r, None), s') ->
  (types.Down r = true <->
   exists rt, In rt (round_trips (emitted s s')) /\
              rejected (with_defaults c) (fst rt) = true).
Proof.
  intros Hrun. apply Check_verdict_inv in Hrun as (ts & -> & Hts & _).
  rewrite conclude_Down_attempted, any_error_iff, Hts. split.
  - intros (a & Ha & Hne). apply in_map_iff in Ha as (rt & <- & Hrt).
    exists rt. split; [done|]. by apply rejected_iff_record.
  - intros (rt & Hrt & Hrej). exists (record_of (with_defaults c) rt).
    split; [by apply in_map | by apply rejected_iff_record].
Qed.

Lemma default_client_Some c s l :
  http.Client c = Some l ->
  http.default_client E
    (if http.Attempts c <? 1 then http.set_Attempts c 1 else c) s =
  (http.Continue (if http.Attempts c <? 1 then http.set_Attempts c 1 else c), s).
Proof.
  intros Hc. unfold http.default_client.
  destruct (http.Attempts c <? 1); simpl; by rewrite Hc.
Qed.

Lemma tls_config_Return_inv c s e s1 :
  http.tls_config E c s = (http.Return e, s1) ->
  http.TLSCAFile c <> "" /\
  (e = errReadingRootCert \/ e = errParsingRootCert) /\
  s1 = emit (EvReadFile (http.TLSCAFile c)) s.
Proof.
  unfold http.tls_config.
  destruct (String.eqb_spec (http.TLSCAFile c) "") as [Hca|Hca]; simpl; [done|].
  destruct (ReadFile E (http.TLSCAFile c)) as [[pem|] []];
    try (intros [= <- <-]; auto; fail).
  destruct (certificates_in E pem); simpl; intros [= <- <-]; auto.
Qed.

(** With an error comes the new result. *)
Lemma Check_error_result c s r e s' :
  http.Check E c s = (Done (r, Some e), s') -> r = http.new_result c.
Proof.
  rewrite Check_unfold.
  destruct (http.default_client E _ s) as [[c2|e0|m] s1]; [| |done].
  - destruct (http.build_request E (settled c s)) as [[req|e1]|m]; [| |done].
    + destruct (http.doChecks E (settled c s) req s1) as [[ts|m] s2]; done.
    + by intros [= <- _ _].
  - by intros [= <- _ _].
Qed.

Lemma build_request_error c e :
  http.build_request E c = Done (inr e) ->
  exists msg, url_Parse E (http.URL c) = inr msg /\ e = errURL msg.
Proof.
  unfold http.build_request, NewRequest.
  destruct (url_Parse E (http.URL c)) as [u|msg].
  - destruct (http.add_headers E _ _); discriminate.
  - intros [= <-]. eauto.
Qed.

(** X3. When [Check] returns an error, it returns the new result, without
    attempt records and without a health flag, and no round trip was
    made.  The error is that of [url.Parse] on the URL of the checker, or,
    for a checker without client and with a CA file, one of the two
    errors of the CA file, the file having been read and nothing else
    done. *)
Theorem Check_error_means_no_attempt c s r e s' :
  http.Check E c s = (Done (r, Some e), s') ->
  r = http.new_result c /\
  round_trips (emitted s s') = [] /\
  ((exists msg, url_Parse E (http.URL c) = inr msg /\ e = errURL msg) \/
   (http.Client c = None /\ http.TLSCAFile c <> "" /\
    (e = errReadingRootCert \/ e = errParsingRootCert) /\
    s' = emit (EvReadFile (http.TLSCAFile c)) s)).
Proof.
  rewrite Check_unfold.
  destruct (http.default_client E _ s) as [[c2|e0|m] s1] eqn:Hdc; [| |done].
  - pose proof Hdc as Hinv.
    apply default_client_inv in Hinv as (_ & (evs & Hlog & Hrt) & _).
    destruct (http.build_request E (settled c s)) as [[req|e1]|m] eqn:Hbr;
      [|intros [= <- <- <-]|done].
    + destruct (http.doChecks E (settled c s) req s1) as [[ts|m] s2]; done.
    + rewrite (emitted_log _ _ _ Hlog). repeat split; [done|]. left.
      apply build_request_error in Hbr as (msg & Hu & ->).
      destruct (settled_fields c s) as (Hurl & _). rewrite Hurl in Hu. eauto.
  - intros [= <- <- <-].
    destruct (http.Client c) as [l|] eqn:Hc.
    + by rewrite (default_client_Some c s l Hc) in Hdc.
    + rewrite (default_client_None E c s Hc) in Hdc.
      destruct (http.tls_config E c s) as [[cfg|e1|m] s2] eqn:Htls.
      * destruct (heap s2 !! DefaultHTTPClient s) as [cl|]; [|done].
        by destruct (net_http.Transport_ cl).
      * injection Hdc as <- <-.
        apply tls_config_Return_inv in Htls as (Hca & He & ->).
        rewrite emit_after, emitted_after. auto 10.
      * done.
Qed.

(** X4. Every result that [Check] returns carries the name and the URL of
    the checker; a verdict also carries its threshold and at least one
    attempt record. *)
Theorem Check_result_identity c s r err s' :
  http.Check E c s = (Done (r, err), s') ->
  types.Title r = http.Name c /\
  types.Endpoint r = http.URL c /\
  (err = None ->
   types.ThresholdRTT r = http.ThresholdRTT c /\
   (1 <= length (types.Times r))%nat).
Proof.
  intros Hrun. destruct err as [e|].
  - apply Check_error_result in Hrun as ->. by repeat split.
  - apply Check_verdict_inv in Hrun as (ts & -> & _ & Hlen).
    destruct (conclude_identity (settled c s) (http.attempted c ts))
      as (-> & -> & ->).
    rewrite conclude_Times, settled_ThresholdRTT. simpl.
    repeat split. lia.
Qed.

End Returned.

(** ** The clients on the heap *)

Section Clients.

Context (E : Env).

Implicit Types (c : http.Checker) (s : State).

Lemma emitted_same s : emitted s s = [].
Proof. unfold emitted. by rewrite drop_all. Qed.

Lemma attempts_events_no_read c l cl req evs ts :
  attempts_events c l cl req evs ts ->
  Forall (fun e => is_read_file e = false) evs.
Proof.
  induction 1 as [|evs a rest ts Hone _ IH]; [constructor|].
  apply Forall_app. split; [|done].
  destruct Hone; repeat constructor.
  destruct (0 <? http.AttemptSpacing c); repeat constructor.
Qed.

(** X5. A checker with a client of its own leaves the heap and the
    package variable as they are and never reads the CA file, whatever
    its TLS settings; every request goes through its client, as it is on
    the heap. *)
Theorem Check_own_client_frame c s l :
  http.Client c = Some l ->
  let s' := snd (http.Check E c s) in
  heap s' = heap s /\
  DefaultHTTPClient s' = DefaultHTTPClient s /\
  Forall (fun e => is_read_file e = false) (emitted s s') /\
  (forall l' cl req res rtt,
     In (EvDo l' cl req res rtt) (emitted s s') ->
     l' = l /\ heap s !! l = Some cl).
Proof.
  intros Hc s'.
  destruct (Check_frame E c s _ _ (default_client_Some E c s l Hc)) as [Hh Hd].
  split; [exact Hh|]. split; [exact Hd|]. subst s'.
  rewrite Check_unfold, (default_client_Some E c s l Hc).
  assert (Hnone : Forall (fun e => is_read_file e = false) (emitted s s) /\
                  forall l' cl req res rtt,
                    In (EvDo l' cl req res rtt) (emitted s s) ->
                    l' = l /\ heap s !! l = Some cl)
    by (rewrite emitted_same; split; [constructor | intros ? ? ? ? ? []]).
  destruct (http.build_request E (settled c s)) as [[req|e]|m]; [|done..].
  destruct (settled_fields c s) as (_ & _ & _ & Hcl). rewrite Hc in Hcl.
  pose proof (settled_Attempts c s) as Hn.
  destruct (heap s !! l) as [cl|] eqn:Hl.
  - destruct (doChecks_spec E (settled c s) req l cl s ltac:(lia) Hcl Hl)
      as (evs & ts & -> & Hevs & _).
    simpl. rewrite emitted_after. split.
    + exact (attempts_events_no_read _ _ _ _ _ _ Hevs).
    + intros l' cl' req' res rtt Hin.
      destruct (attempts_events_client _ _ _ _ _ _ Hevs _ _ _ _ _ Hin)
        as (-> & -> & _). done.
  - destruct (doChecks_no_client E (settled c s) req s ltac:(lia)) as (m & ->);
      [by rewrite Hcl | done].
Qed.

(** The client block changes the heap at the default client only, and
    there only the transport, by a dialer. *)
Lemma default_client_heap c s fl s1 :
  http.default_client E c s = (fl, s1) ->
  heap s1 = heap s \/
  exists cl t d,
    heap s !! DefaultHTTPClient s = Some cl /\
    net_http.Transport_ cl = net_http.RT_Transport t /\
    heap s1 =
      <[DefaultHTTPClient s :=
          net_http.set_Transport cl
            (net_http.RT_Transport (net_http.set_DialTLS (net_http.Clone t) d))]>
        (heap s).
Proof.
  unfold http.default_client. destruct (http.Client c).
  - intros [= <- <-]. by left.
  - destruct (http.tls_config E _ s) as [[cfg|e|m] s2] eqn:Htls;
      apply tls_config_inv in Htls as (Hheap & _);
      [|intros [= <- <-]; by left..].
    rewrite Hheap.
    destruct (heap s !! DefaultHTTPClient s) as [cl|] eqn:Hcl;
      [|intros [= <- <-]; by left].
    destruct (net_http.Transport_ cl) as [|t|name] eqn:Ht;
      intros [= <- <-]; [by left| |by left].
    right. exists cl, t, (net_http.mkDialer (http.URL c) (5 * Second) cfg).
    simpl. by rewrite Hheap.
Qed.

Lemma without_dialer_install cl t d :
  net_http.Transport_ cl = net_http.RT_Transport t ->
  without_dialer
    (net_http.set_Transport cl
       (net_http.RT_Transport (net_http.set_DialTLS (net_http.Clone t) d)))
  = without_dialer cl.
Proof.
  intros Ht. unfold without_dialer. destruct cl as [rt redirect timeout].
  simpl in *. subst rt. reflexivity.
Qed.

(** X6. [Check] keeps the package variable in place, touches no client
    but the default one, and changes nothing of the default client but
    the dialer of its transport: redirect policy, timeouts and the other
    settings stay.  If the transport of the default client was a
    [*http.Transport] before, it is one afterwards, so that the type
    assertion of the next invocation holds. *)
Theorem Check_keeps_default_client_policy c s :
  let s' := snd (http.Check E c s) in
  DefaultHTTPClient s' = DefaultHTTPClient s /\
  (forall l, l <> DefaultHTTPClient s -> heap s' !! l = heap s !! l) /\
  without_dialer <$> heap s' !! DefaultHTTPClient s
    = without_dialer <$> heap s !! DefaultHTTPClient s /\
  (default_ready s = true -> default_ready s' = true).
Proof.
  intros s'.
  destruct (http.default_client E
              (if http.Attempts c <? 1 then http.set_Attempts c 1 else c) s)
    as [fl s1] eqn:Hdc.
  destruct (Check_frame E c s fl s1 Hdc) as [Hh Hd]. fold s' in Hh, Hd.
  pose proof Hdc as Hinv. apply default_client_inv in Hinv as (Hd1 & _).
  assert (Hdef : DefaultHTTPClient s' = DefaultHTTPClient s) by congruence.
  split; [exact Hdef|].
  unfold default_ready. rewrite Hdef, Hh.
  destruct (default_client_heap _ s fl s1 Hdc)
    as [->|(cl & t & d & Hcl & Ht & ->)]; [done|].
  split; [|split].
  - intros l Hl. by rewrite lookup_insert_ne.
  - rewrite lookup_insert_eq, Hcl. simpl. f_equal.
    by apply without_dialer_install.
  - intros _. by rewrite lookup_insert_eq.
Qed.

End Clients.

Section Successive.

Context (E : Env).

Implicit Types (c : http.Checker) (s : State).

(** A run without client of the caller, once the TLS configuration is
    there: the default client gets the dialer and serves every request. *)
Lemma Check_default_run c s cl t cfg s1 :
  http.Client c = None ->
  heap s !! DefaultHTTPClient s = Some cl ->
  net_http.Transport_ cl = net_http.RT_Transport t ->
  http.tls_config E c s = (http.Continue cfg, s1) ->
  let cl' :=
    net_http.set_Transport cl
      (net_http.RT_Transport
         (net_http.set_DialTLS (net_http.Clone t)
            (net_http.mkDialer (http.URL c) (5 * Second) cfg))) in
  heap (snd (http.Check E c s)) = <[DefaultHTTPClient s := cl']> (heap s) /\
  (forall l' cl'' req res rtt,
     In (EvDo l' cl'' req res rtt) (emitted s (snd (http.Check E c s))) ->
     l' = DefaultHTTPClient s /\ cl'' = cl').
Proof.
  intros Hc Hcl Ht Htls cl'.
  pose proof (default_client_installs E c s cl t cfg s1 Hc Hcl Ht Htls) as Hdc.
  destruct (tls_config_inv E c s _ _ Htls) as (Hheap & Hdef & evs0 & Hlog & Hrt).
  destruct (Check_frame E c s _ _ Hdc) as [Hh _].
  simpl in Hh. rewrite Hheap in Hh. split; [done|].
  intros l' cl'' req res rtt.
  rewrite Check_unfold, Hdc.
  set (s2 := store _ _ s1).
  assert (Hlog2 : log s2 = log s ++ evs0) by done.
  assert (Hno : In (EvDo l' cl'' req res rtt) (emitted s s2) -> False).
  { rewrite (emitted_log _ _ _ Hlog2). by apply round_trips_nil_no_Do. }
  destruct (http.build_request E (settled c s)) as [[rq|e]|m]; simpl;
    [|intros Hin; by destruct (Hno Hin)..].
  destruct (settled_fields c s) as (_ & _ & _ & Hscl). rewrite Hc in Hscl.
  assert (Hl2 : heap s2 !! DefaultHTTPClient s = Some cl')
    by (subst s2; simpl; by rewrite lookup_insert_eq).
  destruct (doChecks_spec E (settled c s) rq _ _ s2
              ltac:(rewrite settled_Attempts; lia) Hscl Hl2)
    as (evs & ts & -> & Hevs & _).
  simpl. rewrite (emitted_app s s2 evs0 evs Hlog2). intros Hin.
  apply in_app_or in Hin as [Hin|Hin].
  - by destruct (round_trips_nil_no_Do _ _ _ _ _ _ Hrt Hin).
  - destruct (attempts_events_client _ _ _ _ _ _ Hevs _ _ _ _ _ Hin)
      as (-> & -> & _). done.
Qed.

(** The default client stays ready over an invocation. *)
Lemma Check_default_ready c s :
  default_ready s = true ->
  DefaultHTTPClient (snd (http.Check E c s)) = DefaultHTTPClient s /\
  default_ready (snd (http.Check E c s)) = true.
Proof.
  intros Hready.
  destruct (http.default_client E
              (if http.Attempts c <? 1 then http.set_Attempts c 1 else c) s)
    as [fl s1] eqn:Hdc.
  destruct (Check_frame E c s fl s1 Hdc) as [Hh Hd].
  pose proof Hdc as Hinv. apply default_client_inv in Hinv as (Hd1 & _).
  split; [congruence|].
  unfold default_ready in *. rewrite Hd, Hd1, Hh.
  destruct (default_client_heap E _ s fl s1 Hdc)
    as [->|(cl & t & d & _ & _ & ->)]; [done|].
  by rewrite lookup_insert_eq.
Qed.

(** X7. After any invocation, an invocation for a checker without client
    installs its own dialer: the default client then carries the dialer
    for the URL and the TLS configuration of this checker, not the one
    that the invocation before had left, and every request of the run
    goes through a client with this dialer. *)
Theorem Check_after_Check_installs_own_dialer c1 c2 s cfg s2 :
  default_ready s = true ->
  http.Client c2 = None ->
  http.tls_config E c2 (snd (http.Check E c1 s)) = (http.Continue cfg, s2) ->
  let s1 := snd (http.Check E c1 s) in
  let s' := snd (http.Check E c2 s1) in
  let d := net_http.mkDialer (http.URL c2) (5 * Second) cfg in
  dialer_of <$> heap s' !! DefaultHTTPClient s = Some (Some d) /\
  (forall l cl req res rtt,
     In (EvDo l cl req res rtt) (emitted s1 s') ->
     l = DefaultHTTPClient s /\ dialer_of cl = Some d).
Proof.
  intros Hready Hc2 Htls s1 s' d.
  destruct (Check_default_ready c1 s Hready) as [Hd1 Hready1].
  fold s1 in Hd1, Hready1, Htls.
  destruct (default_ready_inv s1 Hready1) as (cl & t & Hcl & Ht).
  destruct (Check_default_run c2 s1 cl t cfg s2 Hc2 Hcl Ht Htls)
    as [Hheap Hevents].
  fold s' in Hheap, Hevents. rewrite Hd1 in Hheap, Hevents. split.
  - by rewrite Hheap, lookup_insert_eq.
  - intros l cl' req res rtt Hin.
    destruct (Hevents l cl' req res rtt Hin) as [-> ->]. done.
Qed.

End Successive.

(** ** The events of [doChecks] *)

Section Accounting.

Context (E : Env).

Implicit Types (c : http.Checker) (s : State).

Lemma count_app {A} (f : A -> bool) (l l' : list A) :
  count f (l ++ l') = (count f l + count f l')%nat.
Proof. unfold count. by rewrite List.filter_app, length_app. Qed.

(** What [doChecks] returns comes with the events of its attempts. *)
Lemma doChecks_Done_inv c req s ts s' :
  http.doChecks E c req s = (Done ts, s') ->
  exists l cl evs, s' = after s evs /\ attempts_events c l cl req evs ts.
Proof.
  intros Hdo.
  destruct (Z.ltb_spec (http.Attempts c) 1) as [Hlt|Hge].
  - unfold http.doChecks in Hdo.
    destruct (Z.ltb_spec (http.Attempts c) 0); [done|].
    replace (Z.to_nat (http.Attempts c)) with 0%nat in Hdo by lia.
    simpl in Hdo. injection Hdo as <- <-.
    exists 0%nat, http.DefaultClient, []. rewrite after_nil.
    split; [done | constructor].
  - destruct (http.Client c) as [l|] eqn:Hc.
    + destruct (heap s !! l) as [cl|] eqn:Hl.
      * destruct (doChecks_spec E c req l cl s ltac:(lia) Hc Hl)
          as (evs & ts' & Heq & Hevs & _).
        rewrite Heq in Hdo. injection Hdo as <- <-. eauto.
      * destruct (doChecks_no_client E c req s Hge) as (m & Heq);
          [by rewrite Hc | by rewrite Heq in Hdo].
    + destruct (doChecks_no_client E c req s Hge) as (m & Heq);
        [by rewrite Hc | by rewrite Heq in Hdo].
Qed.

Lemma attempts_events_count c l cl req evs ts :
  attempts_events c l cl req evs ts ->
  length (round_trips evs) = length ts /\
  count is_close evs = count is_response (round_trips evs) /\
  count is_sleep evs =
    (if 0 <? http.AttemptSpacing c
     then count is_response (round_trips evs) else 0%nat) /\
  Forall (fun e => is_sleep e = true -> e = EvSleep (http.AttemptSpacing c)) evs.
Proof.
  induction 1 as [|evs a rest ts Hone _ (IHn & IHc & IHs & IHf)].
  - destruct (0 <? http.AttemptSpacing c); repeat split; constructor.
  - rewrite round_trips_app, length_app, !count_app, IHn, IHc, IHs, Forall_app.
    destruct Hone as [msg rtt|resp rtt]; simpl.
    + repeat split; try done. by repeat constructor.
    + destruct (0 <? http.AttemptSpacing c); simpl;
        repeat split; try done; by repeat constructor.
Qed.

(** X8. In a run of [doChecks] there is one round trip for each record,
    the bodies are closed as many times as there are responses, and the
    number of sleeps is the number of responses when the spacing is
    positive and zero otherwise: an attempt with a transport error is not
    followed by a sleep.  Every sleep lasts the spacing. *)
Theorem doChecks_closes_and_sleeps c req s ts s' :
  http.doChecks E c req s = (Done ts, s') ->
  let evs := emitted s s' in
  length (round_trips evs) = length ts /\
  count is_close evs = count is_response (round_trips evs) /\
  count is_sleep evs =
    (if 0 <? http.AttemptSpacing c
     then count is_response (round_trips evs) else 0%nat) /\
  Forall (fun e => is_sleep e = true -> e = EvSleep (http.AttemptSpacing c)) evs.
Proof.
  intros Hdo evs. apply doChecks_Done_inv in Hdo as (l & cl & evs' & -> & Hevs).
  subst evs. rewrite emitted_after.
  exact (attempts_events_count c l cl req evs' ts Hevs).
Qed.

End Accounting.

(** ** The exporter *)

Section Exporter.

Context (E : Env).

Lemma Export_loop_spec (x : telemetry.Exporter) results : forall errs tracked,
  telemetry.TelemetryClient x = true ->
  telemetry.Export_loop x results errs tracked =
  (Done errs, tracked ++ map (telemetry.availability x) results).
Proof.
  induction results as [|r results IH]; intros errs tracked Hcl; simpl.
  - by rewrite app_nil_r.
  - unfold telemetry.Send. rewrite Hcl, IH by done.
    by rewrite <- app_assoc.
Qed.

(** X9. [Export] gives the client one availability item for each result,
    in the order of the results, after the items tracked before, and the
    list of errors that it returns is empty.  With a nil client it panics
    at the first result, and nothing is tracked. *)
Theorem Export_tracks_every_result (x : telemetry.Exporter) results tracked :
  telemetry.Export x results tracked =
  if telemetry.TelemetryClient x
  then (Done [], tracked ++ map (telemetry.availability x) results)
  else match results with
       | [] => (Done [], tracked)
       | _ :: _ => (Panic "nil pointer dereference", tracked)
       end.
Proof.
  unfold telemetry.Export.
  destruct (telemetry.TelemetryClient x) eqn:Hcl.
  - by apply Export_loop_spec.
  - destruct results as [|r results]; [done|].
    simpl. unfold telemetry.Send. by rewrite Hcl.
Qed.

(** X10. The item that the exporter sends for a verdict of [conclude]
    is a success exactly when the verdict is neither down nor degraded.
    Its duration is the mean of the statistics, which [conclude] computes
    only when no attempt failed and the threshold is positive: for a down
    verdict, and for every verdict of a checker without positive
    threshold, the duration sent is zero. *)
Theorem availability_of_verdict (x : telemetry.Exporter)
    (c c0 : http.Checker) (ts : types.Attempts) :
  let r := http.attempted c0 ts in
  let v := http.conclude E c r in
  let item := telemetry.availability x v in
  telemetry.Name item = http.Name c0 /\
  telemetry.RunLocation item = telemetry.TestLocation x /\
  telemetry.Success item = negb (types.Down v || types.Degraded v) /\
  ((exists a, In a ts /\ types.Error a <> "") \/ http.ThresholdRTT c <= 0 ->
   telemetry.Duration item = 0) /\
  ((forall a, In a ts -> types.Error a = "") -> 0 < http.ThresholdRTT c ->
   telemetry.Duration item =
     types.Mean
       (ComputeStats E (types.set_ThresholdRTT r (http.ThresholdRTT c)))).
Proof.
  intros r v item. subst item v r. unfold telemetry.availability. simpl.
  unfold http.conclude. simpl.
  destruct (http.any_error ts) eqn:Hany; simpl.
  - repeat split; try done.
    intros Hok. apply any_error_false in Hok. congruence.
  - destruct (Z.ltb_spec 0 (http.ThresholdRTT c)) as [Hpos|Hle]; simpl.
    + destruct (_ <? _); simpl; repeat split; try done;
        intros [Hex|Hth]; try lia;
        apply any_error_iff in Hex; congruence.
    + repeat split; try done. intros _ Hpos. lia.
Qed.

End Exporter.

(** ** The headers of the request *)

Section AllHeaders.

Context (E : Env).

Lemma add_headers_all hs : forall req req',
  http.add_headers E hs req = Done req' ->
  forall key vals,
    In (key, vals) hs ->
    In (Join vals ", ")
       (default [] (net_http.Header req' !! CanonicalMIMEHeaderKey E key)).
Proof.
  induction hs as [|[k header] hs IH]; intros req req' Hadd key vals Hin;
    [destruct Hin|].
  simpl in Hadd.
  set (req1 := net_http.set_Header req
                 (Header_Add E (net_http.Header req) k (Join header ", "))) in *.
  assert (Hstep : exists req2,
             http.add_headers E hs req2 = Done req' /\
             net_http.Header req2 = net_http.Header req1).
  { destruct (String.eqb (ToLower E k) "host").
    - destruct header as [|h0 header]; [discriminate|]. eauto.
    - eauto. }
  destruct Hstep as (req2 & Hadd2 & Hhdr).
  destruct Hin as [[= <- <-]|Hin]; [|eauto].
  eapply add_headers_keeps; [exact Hadd2|]. rewrite Hhdr. subst req1. simpl.
  apply Header_Add_value.
Qed.


(** X11. When the request is built, its header mapping holds every
    configured header, under its canonical name and with its values
    joined by a comma and a space; and without a header named [host], in
    any case, the host of the request is that of the URL. *)
Theorem build_request_adds_every_header (c : http.Checker) req :
  http.build_request E c = Done (inl req) ->
  (forall key vals,
     In (key, vals) (http.Headers c) ->
     In (Join vals ", ")
        (default [] (net_http.Header req !! CanonicalMIMEHeaderKey E key))) /\
  (host_free E (http.Headers c) = true ->
   forall u, url_Parse E (http.URL c) = inl u ->
             net_http.Host req = removeEmptyPort (url.Host u)).
Proof.
  unfold http.build_request, NewRequest.
  destruct (url_Parse E (http.URL c)) as [u|msg]; [|done].
  destruct (http.add_headers E (http.Headers c) _) as [req'|m] eqn:Hadd; [|done].
  intros [= <-]. split.
  - intros key vals Hin. exact (add_headers_all _ _ _ Hadd key vals Hin).
  - intros Hfree u' [= <-].
    match type of Hadd with
    | http.add_headers _ _ ?r0 = _ =>
        destruct (add_headers_host_free E (http.Headers c) r0 Hfree)
          as (req2 & Hadd2 & Hhost)
    end.
    rewrite Hadd in Hadd2. injection Hadd2 as <-. exact Hhost.
Qed.


End AllHeaders.

(** ** The further properties on concrete inputs *)

(** Two refused connections: the verdict is down. *)
Lemma Check_down_iff_round_trip_rejected_witness :
  let c := sample.with_Attempts 2 (sample.checker "https://down.example") in
  exists r s',
    http.Check sample.env c http.init_state = (Done (r, None), s') /\
    types.Down r = true.
Proof.
  intros c.
  destruct (http.Check sample.env c http.init_state) as [[[r [e|]]|m] s'] eqn:Hrun;
    try (vm_compute in Hrun; discriminate).
  exists r, s'. split; [reflexivity|].
  apply (Check_down_iff_round_trip_rejected sample.env c http.init_state r s' Hrun).
  exists (net_http.DoError "connection refused", 1 * Millisecond).
  vm_compute in Hrun. injection Hrun as _ <-.
  split; [vm_compute; left; reflexivity | reflexivity].
Defined.

(** A CA file without certificate: the parsing error, after the file was
    read. *)
Lemma Check_error_means_no_attempt_witness :
  let c := sample.with_CAFile "/etc/empty.pem"
             (sample.checker "https://up.example") in
  exists r s',
    http.Check sample.env c http.init_state
      = (Done (r, Some errParsingRootCert), s') /\
    r = http.new_result c /\
    round_trips (emitted http.init_state s') = [].
Proof.
  intros c.
  destruct (http.Check sample.env c http.init_state)
    as [[[r [[| | |msg]|]]|m] s'] eqn:Hrun;
    try (vm_compute in Hrun; discriminate).
  exists r, s'. split; [reflexivity|].
  destruct (Check_error_means_no_attempt sample.env c http.init_state r _ s' Hrun)
    as (Hr & Hrt & _).
  auto.
Defined.

(** The verdict for [https://up.example] carries name and URL. *)
Lemma Check_result_identity_witness :
  let c := sample.with_Threshold (200 * Millisecond)
             (sample.checker "https://up.example") in
  exists r s',
    http.Check sample.env c http.init_state = (Done (r, None), s') /\
    types.Title r = "sample" /\
    types.Endpoint r = "https://up.example" /\
    types.ThresholdRTT r = 200 * Millisecond.
Proof.
  intros c.
  destruct (http.Check sample.env c http.init_state) as [[[r [e|]]|m] s'] eqn:Hrun;
    try (vm_compute in Hrun; discriminate).
  exists r, s'. split; [reflexivity|].
  destruct (Check_result_identity sample.env c http.init_state r None s' Hrun)
    as (Ht & He & Hv).
  destruct (Hv eq_refl) as [Hthr _]. auto.
Defined.

(** A checker with the client at location 0 and a CA file: the heap is
    not changed and the file is not read. *)
Lemma Check_own_client_frame_witness :
  let c := sample.with_Client 0%nat
             (sample.with_CAFile "/etc/ca.pem"
                (sample.checker "https://up.example")) in
  let s' := snd (http.Check sample.env c http.init_state) in
  http.Client c = Some 0%nat /\
  heap s' = heap http.init_state /\
  Forall (fun e => is_read_file e = false) (emitted http.init_state s').
Proof.
  intros c s'. split; [reflexivity|].
  destruct (Check_own_client_frame sample.env c http.init_state 0%nat eq_refl)
    as (Hh & _ & Hread & _).
  auto.
Defined.

(** Two invocations: the dialer on the default client is that of the
    second one, with the pool of its CA file. *)
Lemma Check_after_Check_installs_own_dialer_witness :
  let c1 := sample.checker "https://up.example" in
  let c2 := sample.with_CAFile "/etc/ca.pem"
              (sample.checker "https://other.example") in
  let s1 := snd (http.Check sample.env c1 http.init_state) in
  let s' := snd (http.Check sample.env c2 s1) in
  let cfg := tls.mkConfig false (Some [[Byte.x2d; Byte.x2d]]) in
  default_ready http.init_state = true /\
  http.Client c2 = None /\
  dialer_of <$> heap s' !! 0%nat
    = Some (Some (net_http.mkDialer "https://other.example" (5 * Second) cfg)).
Proof.
  intros c1 c2 s1 s' cfg. split; [reflexivity|]. split; [reflexivity|].
  assert (Htls : http.tls_config sample.env c2 s1
                 = (http.Continue cfg, emit (EvReadFile "/etc/ca.pem") s1))
    by (vm_compute; reflexivity).
  destruct (Check_after_Check_installs_own_dialer sample.env c1 c2
              http.init_state cfg _ eq_refl eq_refl Htls) as [Hd _].
  exact Hd.
Defined.

(** Two attempts, the first one refused: two round trips, one response,
    one close and one sleep. *)
Lemma doChecks_closes_and_sleeps_witness :
  let c := sample.with_Client 0%nat
             (sample.with_Spacing Second
                (sample.with_Attempts 2 (sample.checker "https://flaky.example"))) in
  let req := net_http.set_Host sample.request "flaky.example" in
  exists ts s',
    http.doChecks sample.env c req http.init_state = (Done ts, s') /\
    length (round_trips (emitted http.init_state s')) = 2%nat /\
    count is_close (emitted http.init_state s') = 1%nat /\
    count is_sleep (emitted http.init_state s') = 1%nat.
Proof.
  intros c req.
  destruct (http.doChecks sample.env c req http.init_state)
    as [[ts|m] s'] eqn:Hrun; [|vm_compute in Hrun; discriminate].
  exists ts, s'. split; [reflexivity|].
  destruct (doChecks_closes_and_sleeps sample.env c req http.init_state ts s' Hrun)
    as (Hn & Hc & Hs & _).
  vm_compute in Hrun. injection Hrun as <- <-.
  rewrite Hn, Hc, Hs. repeat split; vm_compute; reflexivity.
Defined.

(** A header with two values. *)
Lemma build_request_adds_every_header_witness :
  let c := sample.with_Headers [("accept", ["*/*"; "text/html"])]
             (sample.checker "https://up.example") in
  exists req,
    http.build_request sample.env c = Done (inl req) /\
    In "*/*, text/html" (default [] (net_http.Header req !! "Accept")) /\
    net_http.Host req = "up.example".
Proof.
  intros c.
  destruct (http.build_request sample.env c) as [[req|e]|m] eqn:Hbr;
    try (vm_compute in Hbr; discriminate).
  exists req. split; [reflexivity|].
  destruct (build_request_adds_every_header sample.env c req Hbr) as [Hall Hhost].
  split.
  - exact (Hall "accept" ["*/*"; "text/html"] (or_introl eq_refl)).
  - exact (Hhost eq_refl _ eq_refl).
Defined.


(** ** The descriptions of the failures of [checkDown] *)

(** X13. The error of [checkDown] tells what failed, in this order: a
    status other than the expected one gives the status text, whatever
    the body and the content rules; then a body that cannot be read,
    when a content rule is set; then the required text when it is
    missing; then the forbidden text when it is found. *)
Theorem checkDown_failure_description (c : http.Checker) (resp : net_http.Response) :
  (net_http.StatusCode resp <> http.UpStatus c ->
   http.checkDown c resp = Some ("response status " +:+ net_http.Status resp)) /\
  (net_http.StatusCode resp = http.UpStatus c ->
   (http.MustContain c <> "" \/ http.MustNotContain c <> "") ->
   forall msg,
     net_http.Body_ resp = net_http.BodyError msg ->
     http.checkDown c resp = Some ("reading response body: " +:+ msg)) /\
  (net_http.StatusCode resp = http.UpStatus c ->
   http.MustContain c <> "" ->
   forall body,
     net_http.Body_ resp = net_http.BodyBytes body ->
     ~ substring (http.MustContain c) body ->
     http.checkDown c resp =
       Some ("response does not contain '" +:+ http.MustContain c +:+ "'")) /\
  (net_http.StatusCode resp = http.UpStatus c ->
   http.MustNotContain c <> "" ->
   forall body,
     net_http.Body_ resp = net_http.BodyBytes body ->
     http.MustContain c = "" \/ substring (http.MustContain c) body ->
     substring (http.MustNotContain c) body ->
     http.checkDown c resp =
       Some ("response contains '" +:+ http.MustNotContain c +:+ "'")).
Proof.
  unfold http.checkDown. repeat split.
  - intros Hst. by destruct (Z.eqb_spec (net_http.StatusCode resp) (http.UpStatus c)).
  - intros Hst Hrule msg Hbody. rewrite Hst, Z.eqb_refl, Hbody. simpl.
    destruct (String.eqb_spec (http.MustContain c) "");
      destruct (String.eqb_spec (http.MustNotContain c) ""); simpl; try done.
    by destruct Hrule.
  - intros Hst Hmc body Hbody Hno. rewrite Hst, Z.eqb_refl, Hbody. simpl.
    destruct (String.eqb_spec (http.MustContain c) ""); [done|]. simpl.
    apply Contains_false_iff in Hno. by rewrite Hno.
  - intros Hst Hmn body Hbody Hreq Hfound. rewrite Hst, Z.eqb_refl, Hbody. simpl.
    apply Contains_iff in Hfound. rewrite Hfound.
    destruct (String.eqb_spec (http.MustNotContain c) ""); [done|].
    destruct (String.eqb_spec (http.MustContain c) "") as [Hmc|Hmc]; simpl.
    + reflexivity.
    + destruct Hreq as [?|Hreq]; [done|].
      apply Contains_iff in Hreq. by rewrite Hreq.
Qed.

(** * The storage on Azure *)

Section Maintain.

Context (A : azblob.Azure) (s : azblob.Storage).

Lemma Forall_EvNow (P : azblob.Event -> Prop) nows :
  (forall t, P (azblob.EvNow t)) -> Forall P (map azblob.EvNow nows).
Proof. intros HP. induction nows; simpl; constructor; auto. Qed.

Lemma listed_app evs evs' :
  azblob.listed (evs ++ evs') = azblob.listed evs ++ azblob.listed evs'.
Proof.
  induction evs as [|e evs IH]; [done|].
  destruct e as [| |m [[items next]|err]| |]; simpl; rewrite ?IH; try done.
  by rewrite app_assoc.
Qed.

Lemma readings_app evs evs' :
  azblob.readings (evs ++ evs') = azblob.readings evs ++ azblob.readings evs'.
Proof.
  induction evs as [|e evs IH]; [done|].
  destruct e; simpl; by rewrite ?IH.
Qed.

Lemma listed_EvNow nows : azblob.listed (map azblob.EvNow nows) = [].
Proof. induction nows; simpl; done. Qed.

Lemma readings_EvNow nows : azblob.readings (map azblob.EvNow nows) = nows.
Proof. induction nows as [|t nows IH]; simpl; by rewrite ?IH. Qed.

Lemma combine_app_eq {X Y} (l1 l2 : list X) (k1 k2 : list Y) :
  length l1 = length k1 ->
  combine (l1 ++ l2) (k1 ++ k2) = combine l1 k1 ++ combine l2 k2.
Proof.
  revert k1. induction l1 as [|x l1 IH]; intros [|y k1] Hlen; simpl in *;
    try done.
  f_equal. apply IH. lia.
Qed.

Lemma old_blobs_app expiry m m' :
  azblob.old_blobs expiry (m ++ m')
  = azblob.old_blobs expiry m ++ azblob.old_blobs expiry m'.
Proof. unfold azblob.old_blobs. by rewrite List.filter_app, map_app. Qed.

(** The blobs of a segment: one reading of the clock for each, and the
    old ones are appended in order. *)
Lemma mark_old_spec items : forall acc h,
  exists nows,
    azblob.mark_old A s items acc h =
      (acc ++ azblob.old_blobs (azblob.CheckExpiry s) (combine items nows),
       h ++ map azblob.EvNow nows) /\
    length nows = length items.
Proof.
  induction items as [|b items IH]; intros acc h; simpl.
  - exists []. simpl. by rewrite !app_nil_r.
  - set (now := azblob.Now A h).
    destruct (azblob.CheckExpiry s <? azblob.time_Sub now (azblob.LastModified b))
      eqn:Hold.
    + destruct (IH (acc ++ [b]) (h ++ [azblob.EvNow now])) as (nows & -> & Hlen).
      exists (now :: nows). simpl. unfold azblob.old_blobs at 2. simpl.
      rewrite Hold. simpl. rewrite <- !app_assoc. simpl.
      split; [reflexivity | by rewrite Hlen].
    + destruct (IH acc (h ++ [azblob.EvNow now])) as (nows & -> & Hlen).
      exists (now :: nows). simpl. unfold azblob.old_blobs at 2. simpl.
      rewrite Hold. simpl. rewrite <- !app_assoc. simpl.
      split; [reflexivity | by rewrite Hlen].
Qed.

(** The listing: no blob is deleted in it; when it returns, no call of
    the service has failed, and the blobs marked are the old ones among
    the listed ones. *)
Lemma list_blobs_spec fuel : forall marker acc h o h',
  azblob.list_blobs A fuel s marker acc h = (o, h') ->
  exists evs,
    h' = h ++ evs /\
    Forall (fun e => azblob.is_delete e = false) evs /\
    length (azblob.readings evs) = length (azblob.listed evs) /\
    match o with
    | azblob.Returned acc' =>
        acc' = acc ++ azblob.old_blobs (azblob.CheckExpiry s)
                        (combine (azblob.listed evs) (azblob.readings evs)) /\
        Forall (fun e => azblob.is_failed_list e = false) evs
    | azblob.Panicked _ => False
    | _ => True
    end.
Proof.
  induction fuel as [|fuel IH]; intros marker acc h o h'; simpl.
  - destruct (azblob.NotDone marker); intros [= <- <-];
      exists []; rewrite !app_nil_r; repeat split; constructor.
  - destruct (azblob.NotDone marker);
      [|intros [= <- <-]; exists []; rewrite !app_nil_r;
        repeat split; constructor].
    destruct (azblob.ListBlobsFlatSegment A h _ _ marker)
      as [[items next]|err] eqn:Hlist.
    + destruct (mark_old_spec items acc
                  (h ++ [azblob.EvList marker (inl (items, next))]))
        as (nows & -> & Hlen).
      intros Hrec. apply IH in Hrec as (evs & -> & Hnd & Hlens & Ho).
      exists (azblob.EvList marker (inl (items, next))
              :: map azblob.EvNow nows ++ evs).
      split; [by rewrite <- !app_assoc|].
      assert (Hl : azblob.listed (azblob.EvList marker (inl (items, next))
                                  :: map azblob.EvNow nows ++ evs)
                   = items ++ azblob.listed evs)
        by (simpl; by rewrite listed_app, listed_EvNow).
      assert (Hr : azblob.readings (azblob.EvList marker (inl (items, next))
                                    :: map azblob.EvNow nows ++ evs)
                   = nows ++ azblob.readings evs)
        by (simpl; by rewrite readings_app, readings_EvNow).
      rewrite Hl, Hr. split; [|split].
      * constructor; [done|]. apply Forall_app. split; [|done].
        by apply Forall_EvNow.
      * rewrite !length_app. lia.
      * destruct o as [acc'| | |]; try done. destruct Ho as [-> Hnf].
        split.
        -- rewrite combine_app_eq by done. by rewrite old_blobs_app, app_assoc.
        -- constructor; [done|]. apply Forall_app. split; [|done].
           by apply Forall_EvNow.
    + intros [= <- <-]. exists [azblob.EvList marker (inr err)].
      repeat split. by repeat constructor.
Qed.

(** The deletions: one after the other through the SAS URL, until one
    fails. *)
Lemma delete_blobs_spec dels : forall h o h',
  azblob.delete_blobs A s dels h = (o, h') ->
  exists evs,
    h' = h ++ evs /\
    Forall (fun e => azblob.is_delete e = true) evs /\
    match o with
    | azblob.Returned r =>
        r = None /\
        evs = map (fun b => azblob.EvDelete (default "" (azblob.SASURL s))
                              (azblob.Name b) None) dels
    | azblob.OutOfFuel => False
    | _ => True
    end.
Proof.
  induction dels as [|del dels IH]; intros h o h'; simpl.
  - intros [= <- <-]. exists []. rewrite app_nil_r. by repeat split.
  - destruct (azblob.SASURL s) as [sas|] eqn:Hsas.
    + destruct (azblob.Delete A h sas (azblob.Name del)) as [err|] eqn:Hdel.
      * intros [= <- <-]. exists [azblob.EvDelete sas (azblob.Name del) (Some err)].
        repeat split. by repeat constructor.
      * intros Hrec. apply IH in Hrec as (evs & -> & Hall & Ho).
        exists (azblob.EvDelete sas (azblob.Name del) None :: evs).
        split; [by rewrite <- app_assoc|]. split; [by constructor|].
        destruct o as [r| | |]; try done. destruct Ho as [-> ->]. done.
    + intros [= <- <-]. exists []. rewrite app_nil_r. by repeat split.
Qed.

(** X14. When [Maintain] returns with [CheckExpiry] set, it has first
    listed the container, segment by segment and without a failing call,
    reading the clock once for every blob listed, and then deleted,
    through the SAS URL and in the order of the listing, exactly the
    blobs whose age at that reading exceeded [CheckExpiry]; no blob is
    deleted during the listing. *)
Theorem Maintain_deletes_old_blobs fuel h h' :
  azblob.Maintain A fuel s h = (azblob.Returned None, h') ->
  azblob.CheckExpiry s <> 0 ->
  exists listing,
    h' = h ++ listing
           ++ map (fun b => azblob.EvDelete (default "" (azblob.SASURL s))
                              (azblob.Name b) None)
                  (azblob.old_blobs (azblob.CheckExpiry s)
                     (combine (azblob.listed listing) (azblob.readings listing))) /\
    length (azblob.readings listing) = length (azblob.listed listing) /\
    Forall (fun e => azblob.is_delete e = false) listing /\
    Forall (fun e => azblob.is_failed_list e = false) listing.
Proof.
  unfold azblob.Maintain. intros Hrun Hexp.
  destruct (Z.eqb_spec (azblob.CheckExpiry s) 0); [done|].
  destruct (_ || _); [done|].
  destruct (azblob.NewSharedKeyCredential A _ _); [done|].
  destruct (azblob.url_Parse A _); [done|].
  destruct (azblob.list_blobs A fuel s None [] h) as [[dels|m|m|] h1] eqn:Hlist;
    try done.
  apply list_blobs_spec in Hlist as (listing & -> & Hnd & Hlen & Hdels & Hnf).
  apply delete_blobs_spec in Hrun as (evs & -> & _ & _ & ->).
  simpl in Hdels. subst dels. exists listing.
  by rewrite <- app_assoc.
Qed.

(** X15. Whatever way [Maintain] ends, nothing is deleted in a run in
    which a listing call failed or the listing did not come to its end;
    [Maintain] never returns an error; and with [CheckExpiry] zero it
    returns at once, without any call. *)
Theorem Maintain_deletes_only_after_listing fuel h o h' :
  azblob.Maintain A fuel s h = (o, h') ->
  let evs := drop (length h) h' in
  (Exists (fun e => azblob.is_failed_list e = true) evs \/ o = azblob.OutOfFuel ->
   Forall (fun e => azblob.is_delete e = false) evs) /\
  (forall err, o <> azblob.Returned (Some err)) /\
  (azblob.CheckExpiry s = 0 -> o = azblob.Returned None /\ h' = h).
Proof.
  unfold azblob.Maintain. intros Hrun.
  assert (Hnil : drop (length h) h = []) by apply drop_all.
  destruct (Z.eqb_spec (azblob.CheckExpiry s) 0) as [Hz|Hz].
  { injection Hrun as <- <-. rewrite Hnil. repeat split; try done. }
  destruct (_ || _).
  { injection Hrun as <- <-. rewrite Hnil. repeat split; try done. }
  destruct (azblob.NewSharedKeyCredential A _ _).
  { injection Hrun as <- <-. rewrite Hnil. repeat split; try done. }
  destruct (azblob.url_Parse A _).
  { injection Hrun as <- <-. rewrite Hnil. repeat split; try done. }
  destruct (azblob.list_blobs A fuel s None [] h) as [o1 h1] eqn:Hlist.
  apply list_blobs_spec in Hlist as (listing & -> & Hnd & _ & Ho1).
  destruct o1 as [dels|m|m|].
  - destruct Ho1 as [_ Hnf].
    apply delete_blobs_spec in Hrun as (dl & -> & Hdl & Ho).
    rewrite <- app_assoc, drop_app_length. repeat split; try done.
    + intros [Hex|Hfuel]; [|by subst o].
      apply List.Exists_app in Hex as [Hex|Hex].
      * apply List.Exists_exists in Hex as (e & He & Hf).
        rewrite List.Forall_forall in Hnf. specialize (Hnf e He). simpl in Hnf.
        congruence.
      * apply List.Exists_exists in Hex as (e & He & Hf).
        rewrite List.Forall_forall in Hdl. specialize (Hdl e He).
        destruct e; simpl in *; discriminate.
    + intros err ->. by destruct Ho.
  - injection Hrun as <- <-. rewrite drop_app_length. by repeat split.
  - done.
  - injection Hrun as <- <-. rewrite drop_app_length. by repeat split.
Qed.

End Maintain.

Section Fuel.

Context (A : azblob.Azure) (s : azblob.Storage).

(** More fuel does not change a listing that came to an end. *)
Lemma list_blobs_more_fuel fuel : forall marker acc h o h' fuel',
  azblob.list_blobs A fuel s marker acc h = (o, h') ->
  o <> azblob.OutOfFuel ->
  (fuel <= fuel')%nat ->
  azblob.list_blobs A fuel' s marker acc h = (o, h').
Proof.
  induction fuel as [|fuel IH]; intros marker acc h o h' fuel' Hrun Ho Hle.
  - simpl in Hrun. destruct (azblob.NotDone marker) eqn:Hnd.
    + injection Hrun as <- <-. done.
    + destruct fuel'; simpl; by rewrite Hnd.
  - destruct fuel' as [|fuel']; [lia|]. simpl in *.
    destruct (azblob.NotDone marker); [|done].
    destruct (azblob.ListBlobsFlatSegment A h _ _ marker) as [[items next]|err];
      [|done].
    destruct (azblob.mark_old A s items acc _) as [acc1 h1].
    apply IH; [done | done | lia].
Qed.

Lemma Maintain_more_fuel fuel fuel' h o h' :
  azblob.Maintain A fuel s h = (o, h') ->
  o <> azblob.OutOfFuel ->
  (fuel <= fuel')%nat ->
  azblob.Maintain A fuel' s h = (o, h').
Proof.
  unfold azblob.Maintain. intros Hrun Ho Hle.
  destruct (azblob.CheckExpiry s =? 0); [done|].
  destruct (_ || _); [done|].
  destruct (azblob.NewSharedKeyCredential A _ _); [done|].
  destruct (azblob.url_Parse A _); [done|].
  destruct (azblob.list_blobs A fuel s None [] h) as [o1 h1] eqn:Hlist.
  assert (Ho1 : o1 <> azblob.OutOfFuel).
  { intros ->. injection Hrun as <- _. done. }
  by rewrite (list_blobs_more_fuel fuel None [] h o1 h1 fuel' Hlist Ho1 Hle).
Qed.

End Fuel.

Section Store.

Context (A : azblob.Azure) (s : azblob.Storage).

Ltac store_events :=
  rewrite <- ?app_assoc; rewrite ?drop_app_length, ?drop_all; simpl.

(** X16. Whatever way [Store] ends, it deletes nothing and uploads at
    most once, as its last action, right after the check of the SAS URL:
    the body is the JSON of the results, and the SAS URL, which is the
    configured one when there is one, expires no sooner than 15 minutes
    after the time read by that check; [Store] returns nil exactly after
    an upload without error, and returns an error only when the results
    cannot be marshalled, before doing anything. *)
Theorem Store_uploads_once_with_valid_SAS results h o h' :
  azblob.Store A s results h = (o, h') ->
  let evs := drop (length h) h' in
  Forall (fun e => azblob.is_delete e = false) evs /\
  (forall sas blob body err,
     In (azblob.EvUpload sas blob body err) evs ->
     exists pre now,
       evs = pre ++ [azblob.EvNow now; azblob.EvUpload sas blob body err] /\
       Forall (fun e => azblob.is_upload e = false) pre /\
       now + 15 * azblob.Minute <= azblob.ExpiryTime A sas /\
       azblob.Marshal A results = inl body /\
       (forall u, azblob.SASURL s = Some u -> sas = u) /\
       o = match err with
           | None => azblob.Returned None
           | Some e => azblob.Fatal ("Cannot upload Azure Blob: " +:+ e)
           end) /\
  (o = azblob.Returned None ->
   Exists (fun e => azblob.is_upload e = true) evs) /\
  (forall e, o = azblob.Returned (Some e) ->
             azblob.Marshal A results = inr e /\ evs = []).
Proof.
  unfold azblob.Store, azblob.getSASURL, azblob.checkSASURL.
  destruct (azblob.Marshal A results) as [body|merr] eqn:Hm.
  2:{ intros [= <- <-]. store_events.
      split; [constructor|]. split; [intros ? ? ? ? []|].
      split; [done|]. by intros e [= ->]. }
  destruct (azblob.SASURL s) as [u|] eqn:Hsas; simpl.
  - (* a SAS URL is configured *)
    rewrite Hsas.
    destruct (Z.ltb_spec (azblob.ExpiryTime A u) (azblob.Now A h + 15 * azblob.Minute))
      as [Hexp|Hexp].
    + intros [= <- <-]. store_events.
      split; [by repeat constructor|].
      split; [intros sas blob b err [|[|[]]]; discriminate|].
      split; done.
    + destruct (azblob.Upload A _ u _ body) as [uerr|] eqn:Hup;
        intros [= <- <-]; store_events;
        (split; [by repeat constructor|]);
        (split; [|split; [|done]]).
      * intros sas blob b err [|[Heq|[]]]; [discriminate|].
        injection Heq as <- <- <- <-.
        exists [], (azblob.Now A h).
        split; [done|]. split; [constructor|]. split; [lia|].
        split; [done|]. split; [by intros u' [= ->] | done].
      * done.
      * intros sas blob b err [|[Heq|[]]]; [discriminate|].
        injection Heq as <- <- <- <-.
        exists [], (azblob.Now A h).
        split; [done|]. split; [constructor|]. split; [lia|].
        split; [done|]. split; [by intros u' [= ->] | done].
      * intros _. apply Exists_cons_tl. by apply Exists_cons_hd.
  - (* no SAS URL: one is asked for *)
    destruct (azblob.NewSharedKeyCredential A _ _) as [cerr|].
    { intros [= <- <-]. store_events.
      split; [constructor|]. split; [intros ? ? ? ? []|]. split; done. }
    destruct (azblob.NewSASQueryParameters A _ _ _ _ _) as [qp|qerr].
    2:{ intros [= <- <-]. store_events.
        split; [by repeat constructor|].
        split; [intros sas blob b err [|[]]; discriminate|]. split; done. }
    destruct (azblob.url_Parse A _) as [perr|].
    { intros [= <- <-]. store_events.
      split; [by repeat constructor|].
      split; [intros sas blob b err [|[]]; discriminate|]. split; done. }
    simpl.
    set (h1 := h ++ [azblob.EvNow (azblob.Now A h)]).
    set (fresh := "https://" +:+ _).
    destruct (Z.ltb_spec (azblob.ExpiryTime A fresh)
                (azblob.Now A h1 + 15 * azblob.Minute)) as [Hexp|Hexp].
    + intros [= <- <-]. subst h1. store_events.
      split; [by repeat constructor|].
      split; [intros sas blob b err [|[|[|[]]]]; discriminate|]. split; done.
    + simpl. destruct (azblob.Upload A _ fresh _ body) as [uerr|] eqn:Hup;
        intros [= <- <-]; subst h1; store_events;
        (split; [by repeat constructor|]);
        (split; [|split; [|done]]).
      * intros sas blob b err [|[|[Heq|[]]]]; try discriminate.
        injection Heq as <- <- <- <-.
        exists [azblob.EvNow (azblob.Now A h)],
               (azblob.Now A (h ++ [azblob.EvNow (azblob.Now A h)])).
        split; [done|]. split; [by repeat constructor|]. split; [lia|].
        split; [done|]. split; done.
      * done.
      * intros sas blob b err [|[|[Heq|[]]]]; try discriminate.
        injection Heq as <- <- <- <-.
        exists [azblob.EvNow (azblob.Now A h)],
               (azblob.Now A (h ++ [azblob.EvNow (azblob.Now A h)])).
        split; [done|]. split; [by repeat constructor|]. split; [lia|].
        split; [done|]. split; done.
      * intros _. do 2 apply Exists_cons_tl. by apply Exists_cons_hd.
Qed.

End Store.

(** ** The storage on a concrete account *)

(** Of the three blobs listed in two segments, the two that are older
    than thirty days are deleted, in the order of the listing. *)
Lemma Maintain_deletes_old_blobs_witness :
  let s := sample_azure.storage "checks" (Some "https://sas") in
  exists h',
    azblob.Maintain sample_azure.env 3 s [] = (azblob.Returned None, h') /\
    azblob.CheckExpiry s <> 0 /\
    List.filter azblob.is_delete h' =
      [azblob.EvDelete "https://sas" "10-check.json" None;
       azblob.EvDelete "https://sas" "1-check.json" None].
Proof.
  intros s.
  destruct (azblob.Maintain sample_azure.env 3 s []) as [[[e|]|m|m|] h'] eqn:Hrun;
    try (vm_compute in Hrun; discriminate).
  exists h'. split; [reflexivity|].
  assert (Hexp : azblob.CheckExpiry s <> 0) by (vm_compute; discriminate).
  split; [exact Hexp|].
  destruct (Maintain_deletes_old_blobs sample_azure.env s 3 [] h' Hrun Hexp)
    as (listing & Hh & _).
  vm_compute in Hrun. injection Hrun as <-. reflexivity.
Defined.

(** An account that cannot be listed: the process ends and nothing is
    deleted. *)
Lemma Maintain_deletes_only_after_listing_witness :
  let s := sample_azure.storage "broken" (Some "https://sas") in
  exists o h',
    azblob.Maintain sample_azure.env 3 s [] = (o, h') /\
    o = azblob.Fatal "Cannot list Azure Blob container: service unavailable" /\
    Forall (fun e => azblob.is_delete e = false) (drop 0 h').
Proof.
  intros s.
  destruct (azblob.Maintain sample_azure.env 3 s []) as [o h'] eqn:Hrun.
  exists o, h'. split; [reflexivity|].
  destruct (Maintain_deletes_only_after_listing sample_azure.env s 3 [] o h' Hrun)
    as (Hnone & _).
  vm_compute in Hrun. injection Hrun as <- <-.
  split; [reflexivity|]. apply Hnone. left. by apply Exists_cons_hd.
Defined.

(** Without SAS URL, [Store] asks for one and uploads the results. *)
Lemma Store_uploads_once_with_valid_SAS_witness :
  let s := sample_azure.storage "checks" None in
  exists h',
    azblob.Store sample_azure.env s [] [] = (azblob.Returned None, h') /\
    Exists (fun e => azblob.is_upload e = true) (drop 0 h') /\
    Forall (fun e => azblob.is_delete e = false) (drop 0 h').
Proof.
  intros s.
  destruct (azblob.Store sample_azure.env s [] []) as [[[e|]|m|m|] h'] eqn:Hrun;
    try (vm_compute in Hrun; discriminate).
  exists h'. split; [reflexivity|].
  destruct (Store_uploads_once_with_valid_SAS sample_azure.env s [] []
              _ h' Hrun) as (Hnd & _ & Hup & _).
  split; [exact (Hup eq_refl) | exact Hnd].
Defined.

(** A stale SAS URL is not renewed: the process ends before any upload. *)
Example Store_stale_SAS :
  fst (azblob.Store sample_azure.env
         (sample_azure.storage "checks" (Some "https://stale")) [] [])
  = azblob.Fatal "Failed to get valid storage SAS for storage account checks".
Proof. vm_compute. reflexivity. Qed.

(** ** The exporter made by [New] *)

(** X17. The exporter that [New] returns, also when the configuration
    does not decode, has the key and the test name that were decoded,
    and as its location the decoded one, or "Checkup Exporter" when the
    decoded one is empty: the location is never empty.  The error of the
    decoding is returned as it is.  The client is the one that the
    constructor of the SDK returns for the key; when that is not nil,
    [Export] on the exporter does not panic, and every item that it
    tracks carries the location. *)
Theorem New_exporter_exports (decode : string -> telemetry.Exporter * option string)
    (newClient : string -> bool) (config : string)
    (results : list types.Result) (tracked : list telemetry.Availability) :
  let x0 := fst (decode config) in
  let x := fst (telemetry.New decode newClient config) in
  (telemetry.TestLocation x0 = "" ->
   telemetry.TestLocation x = "Checkup Exporter") /\
  (telemetry.TestLocation x0 <> "" ->
   telemetry.TestLocation x = telemetry.TestLocation x0) /\
  telemetry.TestLocation x <> "" /\
  telemetry.InstrumentationKey x = telemetry.InstrumentationKey x0 /\
  telemetry.TestName x = telemetry.TestName x0 /\
  telemetry.TelemetryClient x = newClient (telemetry.InstrumentationKey x0) /\
  snd (telemetry.New decode newClient config) = snd (decode config) /\
  (newClient (telemetry.InstrumentationKey x0) = true ->
   telemetry.Export x results tracked =
     (Done [], tracked ++ map (telemetry.availability x) results) /\
   Forall (fun item => telemetry.RunLocation item = telemetry.TestLocation x)
          (map (telemetry.availability x) results)).
Proof.
  intros x0 x. subst x0 x. unfold telemetry.New.
  destruct (decode config) as [x0 err]. simpl.
  assert (Hitems : forall x : telemetry.Exporter,
            Forall (fun item => telemetry.RunLocation item = telemetry.TestLocation x)
                   (map (telemetry.availability x) results)).
  { intros x. apply List.Forall_forall. intros item Hin.
    apply in_map_iff in Hin as (r & <- & _). reflexivity. }
  destruct (String.eqb_spec (telemetry.TestLocation x0) "") as [Hloc|Hloc]; simpl.
  - split; [done|]. split; [done|]. split; [discriminate|].
    split; [done|]. split; [done|]. split; [done|]. split; [done|].
    intros Hcl. split; [by apply Export_loop_spec|].
    match goal with
    | |- Forall _ (map (telemetry.availability ?x) _) => exact (Hitems x)
    end.
  - split; [done|]. split; [done|]. split; [done|].
    split; [done|]. split; [done|]. split; [done|]. split; [done|].
    intros Hcl. split; [by apply Export_loop_spec|].
    match goal with
    | |- Forall _ (map (telemetry.availability ?x) _) => exact (Hitems x)
    end.
Qed.
